(** * Selene backend: pairing-code issuance and conditional retrieval

    A shallow embedding of [public_api/endpoints/device_code.py]
    (class [DeviceCodeEndpoint]) together with the library calls it makes
    ([hashlib.sha512], [uuid.uuid4], [random.choice], [json.dumps]) and the
    cache collaborator it writes to; and of the steps of
    [tests/features/steps/device_skills_settings.py] that edit the skill
    settings held by the test context.

    Conventions.
    - A Python [str] is a Rocq [string]; every character stands for the code
      point with the same number (0..255).
    - A Python [bytes] is a [list Z] of values in [0, 256).
    - A Python [dict] with string keys is an association list in insertion
      order, because [json.dumps] prints the items in that order.
    - Randomness is an explicit input: the 16 bytes of [os.urandom] as one
      integer, and the draws of [random.choice] as an infinite tape. *)

From Stdlib Require Import ZArith Lia List Ascii String Bool DecimalString.
From stdpp Require Import gmap strings list.
Import ListNotations.

Local Open Scope Z_scope.

(* ===================================================================== *)
(** ** Characters, bytes and hexadecimal text *)
(* ===================================================================== *)

Definition ord (c : ascii) : Z := Z.of_N (N_of_ascii c).

(** The digits that ['%x'] and [hexdigest] print. *)
Definition hex_digits : list ascii := list_ascii_of_string "0123456789abcdef".

Definition hex_digit (n : Z) : ascii := nth (Z.to_nat n) hex_digits "0"%char.

(** Two lowercase hexadecimal digits of one byte, high nibble first. *)
Definition hex_of_byte (b : Z) : list ascii :=
  [hex_digit (Z.shiftr b 4); hex_digit (Z.land b 15)].

Definition hex_of_bytes (bs : list Z) : list ascii :=
  flat_map hex_of_byte bs.

(** [n.to_bytes(k, 'big')] for [0 <= n < 256^k]. *)
Fixpoint to_bytes_big (k : nat) (n : Z) : list Z :=
  match k with
  | O => []
  | S k' => Z.land (Z.shiftr n (8 * Z.of_nat k')) 255 :: to_bytes_big k' n
  end.

(** [int.from_bytes(bs, 'big')]. *)
Definition from_bytes_big (bs : list Z) : Z :=
  fold_left (fun acc b => Z.lor (Z.shiftl acc 8) b) bs 0.

(** [bytes(s, 'utf-8')] on code points below 256: one byte below 128, the
    two-byte form [110xxxxx 10xxxxxx] from 128 on. *)
Definition utf8_of_char (c : ascii) : list Z :=
  let cp := ord c in
  if cp <? 128 then [cp]
  else [Z.lor 192 (Z.shiftr cp 6); Z.lor 128 (Z.land cp 63)].

Definition utf8_encode (s : string) : list Z :=
  flat_map utf8_of_char (list_ascii_of_string s).

Definition is_lower_hex (c : ascii) : bool :=
  let n := ord c in
  ((48 <=? n) && (n <=? 57)) || ((97 <=? n) && (n <=? 102)).

(* ===================================================================== *)
(** ** [hashlib.sha512] (FIPS 180-4, section 6.4) *)
(* ===================================================================== *)

Module hashlib.

Definition w64 : Z := 2 ^ 64.
Definition add64 (x y : Z) : Z := (x + y) mod w64.
Definition rotr (n x : Z) : Z :=
  Z.lor (Z.shiftr x n) (Z.shiftl x (64 - n) mod w64).
Definition not64 (x : Z) : Z := Z.lxor x (w64 - 1).

Definition Ch (x y z : Z) : Z := Z.lxor (Z.land x y) (Z.land (not64 x) z).
Definition Maj (x y z : Z) : Z :=
  Z.lxor (Z.lxor (Z.land x y) (Z.land x z)) (Z.land y z).
Definition Sigma0 (x : Z) : Z := Z.lxor (Z.lxor (rotr 28 x) (rotr 34 x)) (rotr 39 x).
Definition Sigma1 (x : Z) : Z := Z.lxor (Z.lxor (rotr 14 x) (rotr 18 x)) (rotr 41 x).
Definition sigma0 (x : Z) : Z := Z.lxor (Z.lxor (rotr 1 x) (rotr 8 x)) (Z.shiftr x 7).
Definition sigma1 (x : Z) : Z := Z.lxor (Z.lxor (rotr 19 x) (rotr 61 x)) (Z.shiftr x 6).

Definition K : list Z :=
  [ 0x428a2f98d728ae22; 0x7137449123ef65cd; 0xb5c0fbcfec4d3b2f; 0xe9b5dba58189dbbc;
    0x3956c25bf348b538; 0x59f111f1b605d019; 0x923f82a4af194f9b; 0xab1c5ed5da6d8118;
    0xd807aa98a3030242; 0x12835b0145706fbe; 0x243185be4ee4b28c; 0x550c7dc3d5ffb4e2;
    0x72be5d74f27b896f; 0x80deb1fe3b1696b1; 0x9bdc06a725c71235; 0xc19bf174cf692694;
    0xe49b69c19ef14ad2; 0xefbe4786384f25e3; 0x0fc19dc68b8cd5b5; 0x240ca1cc77ac9c65;
    0x2de92c6f592b0275; 0x4a7484aa6ea6e483; 0x5cb0a9dcbd41fbd4; 0x76f988da831153b5;
    0x983e5152ee66dfab; 0xa831c66d2db43210; 0xb00327c898fb213f; 0xbf597fc7beef0ee4;
    0xc6e00bf33da88fc2; 0xd5a79147930aa725; 0x06ca6351e003826f; 0x142929670a0e6e70;
    0x27b70a8546d22ffc; 0x2e1b21385c26c926; 0x4d2c6dfc5ac42aed; 0x53380d139d95b3df;
    0x650a73548baf63de; 0x766a0abb3c77b2a8; 0x81c2c92e47edaee6; 0x92722c851482353b;
    0xa2bfe8a14cf10364; 0xa81a664bbc423001; 0xc24b8b70d0f89791; 0xc76c51a30654be30;
    0xd192e819d6ef5218; 0xd69906245565a910; 0xf40e35855771202a; 0x106aa07032bbd1b8;
    0x19a4c116b8d2d0c8; 0x1e376c085141ab53; 0x2748774cdf8eeb99; 0x34b0bcb5e19b48a8;
    0x391c0cb3c5c95a63; 0x4ed8aa4ae3418acb; 0x5b9cca4f7763e373; 0x682e6ff3d6b2b8a3;
    0x748f82ee5defb2fc; 0x78a5636f43172f60; 0x84c87814a1f0ab72; 0x8cc702081a6439ec;
    0x90befffa23631e28; 0xa4506cebde82bde9; 0xbef9a3f7b2c67915; 0xc67178f2e372532b;
    0xca273eceea26619c; 0xd186b8c721c0c207; 0xeada7dd6cde0eb1e; 0xf57d4f7fee6ed178;
    0x06f067aa72176fba; 0x0a637dc5a2c898a6; 0x113f9804bef90dae; 0x1b710b35131c471b;
    0x28db77f523047d84; 0x32caab7b40c72493; 0x3c9ebe0a15c9bebc; 0x431d67c49c100d4c;
    0x4cc5d4becb3e42b6; 0x597f299cfc657e2a; 0x5fcb6fab3ad6faec; 0x6c44198c4a475817 ].

(** The eight working variables [a..h], also the chaining value. *)
Record regs : Type := Regs {
  ra : Z; rb : Z; rc : Z; rd : Z; re : Z; rf : Z; rg : Z; rh : Z }.

Definition H0 : regs :=
  Regs 0x6a09e667f3bcc908 0xbb67ae8584caa73b 0x3c6ef372fe94f82b 0xa54ff53a5f1d36f1
       0x510e527fade682d1 0x9b05688c2b3e6c1f 0x1f83d9abfb41bd6b 0x5be0cd19137e2179.

(** Padding: a [0x80] byte, zeros up to 112 modulo 128, then the bit length
    on 16 bytes. *)
Definition pad (msg : list Z) : list Z :=
  let l := Z.of_nat (length msg) in
  let zeros := Z.to_nat ((111 - l) mod 128) in
  msg ++ [128] ++ repeat 0 zeros ++ to_bytes_big 16 (8 * l).

(** Cut a byte string into pieces of [n] bytes; [fuel] bounds their number. *)
Fixpoint chunks (fuel n : nat) (bs : list Z) : list (list Z) :=
  match fuel with
  | O => []
  | S fuel' =>
      match bs with
      | [] => []
      | _ => firstn n bs :: chunks fuel' n (skipn n bs)
      end
  end.

Definition block_words (block : list Z) : list Z :=
  map from_bytes_big (chunks 16 8 block).

(** Message schedule, newest word first: [rw] holds [W(t-1), W(t-2), ...]. *)
Fixpoint extend (n : nat) (rw : list Z) : list Z :=
  match n with
  | O => rw
  | S n' =>
      let w := add64 (add64 (add64 (sigma1 (nth 1 rw 0)) (nth 6 rw 0))
                            (sigma0 (nth 14 rw 0))) (nth 15 rw 0) in
      extend n' (w :: rw)
  end.

Definition schedule (block : list Z) : list Z :=
  rev (extend 64 (rev (block_words block))).

Definition round (s : regs) (kw : Z * Z) : regs :=
  let t1 := add64 (add64 (add64 (add64 (rh s) (Sigma1 (re s)))
                                (Ch (re s) (rf s) (rg s))) (fst kw)) (snd kw) in
  let t2 := add64 (Sigma0 (ra s)) (Maj (ra s) (rb s) (rc s)) in
  Regs (add64 t1 t2) (ra s) (rb s) (rc s) (add64 (rd s) t1) (re s) (rf s) (rg s).

Definition compress (h : regs) (block : list Z) : regs :=
  let s := fold_left round (combine K (schedule block)) h in
  Regs (add64 (ra h) (ra s)) (add64 (rb h) (rb s)) (add64 (rc h) (rc s))
       (add64 (rd h) (rd s)) (add64 (re h) (re s)) (add64 (rf h) (rf s))
       (add64 (rg h) (rg s)) (add64 (rh h) (rh s)).

Definition regs_bytes (h : regs) : list Z :=
  flat_map (to_bytes_big 8) [ra h; rb h; rc h; rd h; re h; rf h; rg h; rh h].

(** The hash object: [hashlib.sha512()] starts empty, [update] appends. *)
Record sha512_obj : Type := Sha512 { buffer : list Z }.

Definition sha512 : sha512_obj := Sha512 [].

Definition update (o : sha512_obj) (data : list Z) : sha512_obj :=
  Sha512 (buffer o ++ data).

Definition digest (o : sha512_obj) : list Z :=
  let m := pad (buffer o) in
  regs_bytes (fold_left compress (chunks (length m) 128 m) H0).

Definition hexdigest (o : sha512_obj) : string :=
  string_of_list_ascii (hex_of_bytes (digest o)).

End hashlib.

(* ===================================================================== *)
(** ** [uuid.uuid4] and [str(UUID)] *)
(* ===================================================================== *)

Module uuid.

(** A [UUID] object holds its 128-bit integer. *)
Record UUID : Type := Build_UUID { int : Z }.

(** [uuid4()] is [UUID(bytes=os.urandom(16), version=4)]: the constructor
    reads the bytes as a big-endian integer, then forces the variant bits
    to [10] and the version nibble to [4].  [urandom] is the integer value
    of the 16 random bytes. *)
Definition uuid4 (urandom : Z) : UUID :=
  let i := urandom mod 2 ^ 128 in
  let i := Z.ldiff i (Z.shiftl 0xc000 48) in
  let i := Z.lor i (Z.shiftl 0x8000 48) in
  let i := Z.ldiff i (Z.shiftl 0xf000 64) in
  let i := Z.lor i (Z.shiftl 4 76) in
  Build_UUID i.

(** ['%032x' % self.int], for an integer below [2^128]. *)
Definition hex32 (u : UUID) : list ascii := hex_of_bytes (to_bytes_big 16 (int u)).

(** [str(u)]: the 32 digits grouped 8-4-4-4-12. *)
Definition str (u : UUID) : string :=
  let h := hex32 u in
  let dash := ["-"%char] in
  string_of_list_ascii
    (firstn 8 h ++ dash ++ firstn 4 (skipn 8 h) ++ dash ++
     firstn 4 (skipn 12 h) ++ dash ++ firstn 4 (skipn 16 h) ++ dash ++
     skipn 20 h).

End uuid.

(* ===================================================================== *)
(** ** Python values, [dict] and [json.dumps] *)
(* ===================================================================== *)

Inductive pyval : Type :=
  | PyStr (s : string)
  | PyInt (n : Z).

(** A [dict] with string keys, items in insertion order. *)
Definition pydict : Type := list (string * pyval).

Fixpoint dict_get (d : pydict) (k : string) : option pyval :=
  match d with
  | [] => None
  | (k', v) :: d' => if String.eqb k' k then Some v else dict_get d' k
  end.

(** [d.update(k=v)]: an existing key keeps its position, a new key goes to
    the end. *)
Fixpoint dict_update (d : pydict) (k : string) (v : pyval) : pydict :=
  match d with
  | [] => [(k, v)]
  | (k', v') :: d' =>
      if String.eqb k' k then (k', v) :: d' else (k', v') :: dict_update d' k v
  end.

Module json.

Definition quote : ascii := "034"%char.
Definition backslash : ascii := "092"%char.

(** One character of a JSON string with [ensure_ascii=True]: the short
    escapes, the character itself from space to tilde, and a [\uXXXX]
    escape for every other code point. *)
Definition escape_char (c : ascii) : list ascii :=
  let n := ord c in
  if n =? 34 then [backslash; quote]
  else if n =? 92 then [backslash; backslash]
  else if n =? 8 then [backslash; "b"%char]
  else if n =? 12 then [backslash; "f"%char]
  else if n =? 10 then [backslash; "n"%char]
  else if n =? 13 then [backslash; "r"%char]
  else if n =? 9 then [backslash; "t"%char]
  else if (32 <=? n) && (n <=? 126) then [c]
  else [backslash; "u"%char] ++ hex_of_bytes (to_bytes_big 2 n).

Definition encode_str (s : string) : list ascii :=
  [quote] ++ flat_map escape_char (list_ascii_of_string s) ++ [quote].

Definition encode (v : pyval) : list ascii :=
  match v with
  | PyStr s => encode_str s
  | PyInt n => list_ascii_of_string (DecimalString.NilZero.string_of_int (Z.to_int n))
  end.

Definition encode_item (kv : string * pyval) : list ascii :=
  encode_str (fst kv) ++ list_ascii_of_string ": " ++ encode (snd kv).

Fixpoint join (sep : list ascii) (parts : list (list ascii)) : list ascii :=
  match parts with
  | [] => []
  | [p] => p
  | p :: ps => p ++ sep ++ join sep ps
  end.

(** [json.dumps(d)] with the default separators [', '] and [': ']. *)
Definition dumps (d : pydict) : string :=
  string_of_list_ascii
    (["{"%char] ++ join (list_ascii_of_string ", ") (map encode_item d) ++ ["}"%char]).

End json.

(* ===================================================================== *)
(** ** The cache collaborator *)
(* ===================================================================== *)

Module SeleneCache.

(** A stored value with the instant from which it is gone. *)
Record entry : Type := Entry { value : string; expires_at : Z }.

(** Modelled from the spec: [selene.util.cache.SeleneCache] is not among the
    sources.  The spec asks of it a key/value store with expiration: an
    entry is retrievable until its TTL has elapsed.  The state is the table
    of entries and the current time in seconds. *)
Record t : Type := Cache { store : gmap string entry; clock : Z }.

(** Modelled from the spec: [Get(key) -> value | absent]; an entry whose
    TTL has elapsed is absent. *)
Definition get (c : t) (key : string) : option entry :=
  match store c !! key with
  | Some e => if clock c <? expires_at e then Some e else None
  | None => None
  end.

(** Modelled from the spec:
    [SetIfAbsentWithExpiration(key, value, ttlSeconds) -> bool], true when
    written, false when the key is already present; one atomic operation,
    which leaves the cache as it was on conflict. *)
Definition set_if_not_exists_with_expiration
    (c : t) (key value : string) (expiration : Z) : bool * t :=
  match get c key with
  | Some _ => (false, c)
  | None =>
      (true, Cache (<[key := Entry value (clock c + expiration)]> (store c)) (clock c))
  end.

(** Modelled from the spec: [Delete(key)]. *)
Definition delete (c : t) (key : string) : t :=
  Cache (base.delete key (store c)) (clock c).

(** Modelled from the spec: [Set(key, value, ttlSeconds)]. *)
Definition set (c : t) (key value : string) (expiration : Z) : t :=
  Cache (<[key := Entry value (clock c + expiration)]> (store c)) (clock c).

(** Time passing. *)
Definition tick (c : t) (seconds : Z) : t :=
  Cache (store c) (clock c + seconds).

End SeleneCache.

(* ===================================================================== *)
(** ** Effects: exceptions, randomness and the cache *)
(* ===================================================================== *)

Inductive exn : Type :=
  | KeyError (key : string)
  | IndexError.

(** What a call has produced when observed: a value, an exception, or
    nothing yet because the loop is still turning (fuel exhausted). *)
Inductive outcome (A : Type) : Type :=
  | Return (a : A)
  | Raise (e : exn)
  | Running.
Arguments Return {A} a.
Arguments Raise {A} e.
Arguments Running {A}.

(** Everything a request handler reads or writes besides its locals. *)
Record world : Type := World {
  cache : SeleneCache.t;
  choices : nat -> nat;   (* the numbers [random.choice] will draw *)
  drawn : nat;            (* how many of them have been consumed *)
  urandom : nat -> Z;     (* the 16-byte blocks [os.urandom] will deliver *)
  delivered : nat         (* how many of them have been consumed *)
}.

Definition M (A : Type) : Type := world -> outcome A * world.

Definition ret {A : Type} (a : A) : M A := fun w => (Return a, w).

Definition raise {A : Type} (e : exn) : M A := fun w => (Raise e, w).

Definition bind {A B : Type} (m : M A) (k : A -> M B) : M B :=
  fun w =>
    match m w with
    | (Return a, w') => k a w'
    | (Raise e, w') => (Raise e, w')
    | (Running, w') => (Running, w')
    end.

Notation "'let*' x ':=' m 'in' k" := (bind m (fun x => k))
  (at level 10, x name, m at level 100, k at level 200).

Module random.

(** [random.choice(seq)]: [seq[randbelow(len(seq))]], and [IndexError] on
    an empty sequence.  The next number of the tape, reduced below
    [len(seq)], is the index drawn. *)
Definition choice (seq : string) : M ascii := fun w =>
  match list_ascii_of_string seq with
  | [] => (Raise IndexError, w)
  | c :: cs =>
      let i := Nat.modulo (choices w (drawn w)) (length (c :: cs)) in
      (Return (nth i (c :: cs) c),
       World (cache w) (choices w) (S (drawn w)) (urandom w) (delivered w))
  end.

End random.

(** [os.urandom(16)] as the integer its bytes spell. *)
Definition os_urandom16 : M Z := fun w =>
  (Return (urandom w (delivered w) mod 2 ^ 128),
   World (cache w) (choices w) (drawn w) (urandom w) (S (delivered w))).

Definition uuid_uuid4 : M uuid.UUID :=
  let* r := os_urandom16 in ret (uuid.uuid4 r).

Definition cache_set_if_not_exists_with_expiration
    (key value : string) (expiration : Z) : M bool := fun w =>
  let '(added, c) :=
    SeleneCache.set_if_not_exists_with_expiration (cache w) key value expiration in
  (Return added, World c (choices w) (drawn w) (urandom w) (delivered w)).

(** The part of a request the endpoint reads. *)
Record request : Type := Request { args : gmap string string }.

(** [request.args[key]]. *)
Definition request_arg (req : request) (key : string) : M string :=
  match args req !! key with
  | Some v => ret v
  | None => raise (KeyError key)
  end.

(* ===================================================================== *)
(** ** [DeviceCodeEndpoint] *)
(* ===================================================================== *)

Definition ONE_DAY : Z := 86400.

Section DeviceCodeEndpoint.

(** [pairing_code_key c] stands for
    [DEVICE_PAIRING_CODE_KEY.format(pairing_code=c)].  The template is a
    constant of [selene.util.cache], which is not among the sources, so the
    endpoint is read for any such key function. *)
Variable pairing_code_key : string -> string.

Definition allowed_characters : string := "ACEFHJKLMNPRTUVWXY3479".

(** [_generate_token]: the SHA512 hex digest of the text of a fresh uuid4. *)
Definition _generate_token : M string :=
  let sha512 := hashlib.sha512 in
  let* u := uuid_uuid4 in
  let sha512 := hashlib.update sha512 (utf8_encode (uuid.str u)) in
  ret (hashlib.hexdigest sha512).

(** [random.choice(self.allowed_characters) for _ in range(n)]. *)
Fixpoint choices_from (seq : string) (n : nat) : M (list ascii) :=
  match n with
  | O => ret []
  | S n' =>
      let* c := random.choice seq in
      let* cs := choices_from seq n' in
      ret (c :: cs)
  end.

(** [_generate_pairing_code]: six draws joined on the empty string. *)
Definition _generate_pairing_code : M string :=
  let* cs := choices_from allowed_characters 6 in
  ret (string_of_list_ascii cs).

(** One turn of the [while] loop of [_build_response]: draw a code, put it
    in the response, try to claim its key.  The debug logging is left out. *)
Definition attempt (response_data : pydict) : M (bool * pydict) :=
  let* pairing_code := _generate_pairing_code in
  let response_data := dict_update response_data "code" (PyStr pairing_code) in
  let* pairing_code_added :=
    cache_set_if_not_exists_with_expiration
      (pairing_code_key pairing_code) (json.dumps response_data) ONE_DAY in
  ret (pairing_code_added, response_data).

(** [while not pairing_code_added: ...; return response_data], observed
    for at most [fuel] turns. *)
Fixpoint pairing_loop (fuel : nat) (response_data : pydict) : M pydict :=
  match fuel with
  | O => fun w => (Running, w)
  | S fuel' =>
      let* r := attempt response_data in
      if fst r then ret (snd r) else pairing_loop fuel' (snd r)
  end.

(** The [dict(...)] that opens [_build_response]; the keyword arguments are
    evaluated in the order written. *)
Definition initial_response (req : request) : M pydict :=
  let* state := request_arg req "state" in
  let* token := _generate_token in
  ret [("state", PyStr state); ("token", PyStr token); ("expiration", PyInt ONE_DAY)].

Definition _build_response (fuel : nat) (req : request) : M pydict :=
  let* response_data := initial_response req in
  pairing_loop fuel response_data.

Definition HTTPStatus_OK : Z := 200.

Definition get (fuel : nat) (req : request) : M (pydict * Z) :=
  let* response_data := _build_response fuel req in
  ret (response_data, HTTPStatus_OK).

End DeviceCodeEndpoint.

(** *** The loop in closed form *)

(** The character [random.choice(allowed_characters)] returns when the
    tape shows [r]. *)
Definition drawn_character (r : nat) : ascii :=
  nth (Nat.modulo r 22) (list_ascii_of_string allowed_characters) "A"%char.

(** The code that six draws starting at position [pos] of the tape spell. *)
Definition code_at (tape : nat -> nat) (pos : nat) : string :=
  string_of_list_ascii
    (map (fun i => drawn_character (tape (i + pos)%nat)) (seq 0 6)).

(** The world after [n] more draws of [random.choice]. *)
Definition after_draws (n : nat) (w : world) : world :=
  World (cache w) (choices w) (n + drawn w) (urandom w) (delivered w).

(** The code the turn number [k] (from 0) of the loop draws when the loop
    is entered in world [w]. *)
Definition code_of_turn (w : world) (k : nat) : string :=
  code_at (choices w) (6 * k + drawn w).

(** The world in which the loop returns when the turn number [n] is the
    first whose key is free: the session is in the cache and [6 * (n + 1)]
    draws are consumed. *)
Definition world_after_success (pairing_code_key : string -> string)
    (w : world) (n : nat) (response_data : pydict) : world :=
  World
    (SeleneCache.Cache
       (<[pairing_code_key (code_of_turn w n) :=
            SeleneCache.Entry (json.dumps response_data)
              (SeleneCache.clock (cache w) + ONE_DAY)]>
          (SeleneCache.store (cache w)))
       (SeleneCache.clock (cache w)))
    (choices w) (6 * S n + drawn w) (urandom w) (delivered w).

(** The key of the code of turn [k] holds a live entry. *)
Definition occupied (pairing_code_key : string -> string) (w : world) (k : nat) : Prop :=
  is_Some (SeleneCache.get (cache w) (pairing_code_key (code_of_turn w k))).

(** The token [_generate_token] makes of the random block [r]. *)
Definition token_of (r : Z) : string :=
  hashlib.hexdigest
    (hashlib.update hashlib.sha512 (utf8_encode (uuid.str (uuid.uuid4 r)))).

(** The response and the world on entry to the loop. *)
Definition response_before_loop (state : string) (w : world) : pydict :=
  [("state", PyStr state);
   ("token", PyStr (token_of (urandom w (delivered w) mod 2 ^ 128)));
   ("expiration", PyInt ONE_DAY)].

Definition world_before_loop (w : world) : world :=
  World (cache w) (choices w) (drawn w) (urandom w) (S (delivered w)).

(** *** Sample inputs *)

Definition sample_key (c : string) : string := "pairing.code:" ++ c.

Definition sample_request : request := Request {[ "state" := "abc-state" ]}.

(** An empty cache at time 0; the tape draws the alphabet in order. *)
Definition sample_world : world :=
  World (SeleneCache.Cache ∅ 0) (fun n => n) 0 (fun _ => 0) 0.

(** The same, with the key of the first code on the tape taken. *)
Definition crowded_world : world :=
  World (SeleneCache.Cache {[ "pairing.code:ACEFHJ" := SeleneCache.Entry "{}" 500 ]} 100)
        (fun n => n) 0 (fun _ => 0) 0.

Definition sample_token : string :=
  "01e302b749e7ad2b46ba86e5ebd7c4e67580d94cc5b7bc1f96eb6e7e236f3b8ecf16a162f7359941bf25ec881b69418c777f4fe43cd91a95fa3286ad8e1d494d".

Definition sample_response (code : string) : pydict :=
  [("state", PyStr "abc-state"); ("token", PyStr sample_token);
   ("expiration", PyInt 86400); ("code", PyStr code)].

(* ===================================================================== *)
(** ** Concurrent requests against one cache *)
(* ===================================================================== *)

(** Any number of requests run [_build_response] at once, on one server or
    on several.  A turn of the loop touches the shared cache exactly once,
    in the atomic conditional write; the rest of the turn works on locals
    and on random draws.  So the interleavings of the requests are the
    interleavings of whole turns, with time passing and other users of the
    cache acting in between. *)

Section Interleaving.

Variable pairing_code_key : string -> string.

(** The code a response carries, once it has one. *)
Definition session_code (response_data : pydict) : option string :=
  match dict_get response_data "code" with
  | Some (PyStr c) => Some c
  | _ => None
  end.

(** A request is either in the loop with its response so far, or it has
    returned its response.  For a returned response the model remembers when
    its session was stored and whether the session has been claimed since
    (its key deleted by the activation step). *)
Inductive thread : Type :=
  | InLoop (response_data : pydict)
  | Finished (response_data : pydict) (stored_at : Z) (claimed : bool).

Record system : Type := System {
  shared : SeleneCache.t;
  pool : gmap nat thread
}.

Definition mark_claimed (key : string) (t : thread) : thread :=
  match t with
  | InLoop _ => t
  | Finished response_data stored_at claimed =>
      match session_code response_data with
      | Some c =>
          if String.eqb (pairing_code_key c) key
          then Finished response_data stored_at true
          else t
      | None => t
      end
  end.

Inductive step : system -> system -> Prop :=
  | step_request (s : system) (i : nat) (req : request) (w w' : world)
        (response_data : pydict) :
      pool s !! i = None ->
      cache w = shared s ->
      initial_response req w = (Return response_data, w') ->
      step s (System (cache w') (<[i := InLoop response_data]> (pool s)))
  | step_attempt (s : system) (i : nat) (w w' : world)
        (response_data response_data' : pydict) (added : bool) :
      pool s !! i = Some (InLoop response_data) ->
      cache w = shared s ->
      attempt pairing_code_key response_data w = (Return (added, response_data'), w') ->
      step s (System (cache w')
                (<[i := if added
                        then Finished response_data' (SeleneCache.clock (shared s)) false
                        else InLoop response_data']> (pool s)))
  | step_tick (s : system) (seconds : Z) :
      0 <= seconds ->
      step s (System (SeleneCache.tick (shared s) seconds) (pool s))
  | step_claim (s : system) (key : string) :
      step s (System (SeleneCache.delete (shared s) key)
                (mark_claimed key <$> pool s))
  | step_foreign (s : system) (key value : string) (expiration : Z) :
      (forall c, pairing_code_key c <> key) ->
      step s (System (SeleneCache.set (shared s) key value expiration) (pool s)).

(** The states the system can be in: it starts with no request in flight,
    whatever the cache holds. *)
Inductive reachable : system -> Prop :=
  | reachable_init (c : SeleneCache.t) : reachable (System c ∅)
  | reachable_step (s s' : system) : reachable s -> step s s' -> reachable s'.

(** Request [i] has returned a session with code [c] that is unexpired and
    unclaimed. *)
Definition holds (s : system) (i : nat) (c : string) : Prop :=
  exists response_data stored_at,
    pool s !! i = Some (Finished response_data stored_at false) /\
    session_code response_data = Some c /\
    SeleneCache.clock (shared s) < stored_at + ONE_DAY.

(** The entry under the key of [c] is the one request [i] wrote. *)
Definition occupies (s : system) (i : nat) (c : string) : Prop :=
  exists response_data stored_at,
    pool s !! i = Some (Finished response_data stored_at false) /\
    session_code response_data = Some c /\
    SeleneCache.get (shared s) (pairing_code_key c) =
      Some (SeleneCache.Entry (json.dumps response_data) (stored_at + ONE_DAY)).

(** What holds in every reachable state: a live session is in the cache
    under its key, and live sessions of different requests have different
    keys. *)
Definition sessions_in_cache (s : system) : Prop :=
  forall i c, holds s i c -> occupies s i c.

Definition keys_not_shared (s : system) : Prop :=
  forall i j ci cj,
    holds s i ci -> holds s j cj -> pairing_code_key ci = pairing_code_key cj -> i = j.

End Interleaving.

(** *** A sample run of two requests *)

(** Request 0 arrives, draws [ACEFHJ] and stores it.  Request 1 arrives,
    draws [ACEFHJ] too, collides, draws [KLMNPR] and stores it. *)
Definition sample_system_1 : system :=
  System (cache sample_world)
    (<[0%nat := InLoop (response_before_loop "abc-state" sample_world)]> ∅).

Definition sample_world_2 : world :=
  world_after_success sample_key (world_before_loop sample_world) 0
    (sample_response "ACEFHJ").

Definition sample_system_2 : system :=
  System (cache sample_world_2)
    (<[0%nat := Finished (sample_response "ACEFHJ") 0 false]> (pool sample_system_1)).

Definition sample_world_3 : world :=
  World (cache sample_world_2) (fun n => n) 0 (fun _ => 0) 0.

Definition sample_system_3 : system :=
  System (cache sample_world_3)
    (<[1%nat := InLoop (response_before_loop "abc-state" sample_world_3)]>
       (pool sample_system_2)).

Definition sample_system_4 : system :=
  System (cache sample_world_3)
    (<[1%nat := InLoop (sample_response "ACEFHJ")]> (pool sample_system_3)).

Definition sample_world_5 : world :=
  world_after_success sample_key (world_before_loop sample_world_3) 1
    (sample_response "KLMNPR").

Definition sample_system_5 : system :=
  System (cache sample_world_5)
    (<[1%nat := Finished (sample_response "KLMNPR") 0 false]> (pool sample_system_4)).

(** *** Sample inputs: a second request *)

(** A request arriving [seconds] after the sample request was served, with
    the same tape. *)
Definition later_world (seconds : Z) : world :=
  World (SeleneCache.tick (cache sample_world_2) seconds) (fun n => n) 0 (fun _ => 0) 0.

(* ===================================================================== *)
(** ** [ConditionalStateCache] *)
(* ===================================================================== *)

Module ConditionalStateCache.

(** Modelled from the spec: [CachedResourceState], a payload with the
    fingerprint of its version.  The operations of this component (the ETag
    manager and the endpoints using it) are not among the sources; only
    their tests are.  Of the two derivations the spec allows for a
    fingerprint, this is the monotonically increasing version counter kept
    with the cache: the one under which a fingerprint issued after
    [Invalidate] differs from the invalidated one whatever the payload. *)
Record CachedResourceState : Type := Cached { payload : string; fingerprint : nat }.

(** Modelled from the spec: the cached states by resource key, the
    authoritative store giving the current payload of every resource, and
    the version counter. *)
Record t : Type := State {
  entries : gmap string CachedResourceState;
  source : string -> string;
  version : nat
}.

(** Modelled from the spec: [{NotModified} | {Payload, fingerprint}]. *)
Inductive response : Type :=
  | NotModified
  | Full (payload : string) (fingerprint : nat).

(** Modelled from the spec: [Read(resourceKey, callerFingerprint)].  With a
    cached entry: [NotModified] if the caller's fingerprint is present and
    equal to the stored one, otherwise the payload and its fingerprint.
    Without one: the payload comes from the authoritative source, is cached
    under a freshly computed fingerprint and returned in full. *)
Definition Read (resourceKey : string) (callerFingerprint : option nat) (s : t)
    : response * t :=
  match entries s !! resourceKey with
  | Some e =>
      if decide (callerFingerprint = Some (fingerprint e))
      then (NotModified, s)
      else (Full (payload e) (fingerprint e), s)
  | None =>
      let p := source s resourceKey in
      let f := version s in
      (Full p f,
       State (<[resourceKey := Cached p f]> (entries s)) (source s) (S (version s)))
  end.

(** Modelled from the spec: [Invalidate(resourceKey)] clears the cached
    state, forcing the next [Read] to recompute from the source. *)
Definition Invalidate (resourceKey : string) (s : t) : t :=
  State (delete resourceKey (entries s)) (source s) (version s).

(** Modelled from the spec: a mutation of the underlying resource, done by
    the settings-update and skill-management flows in the authoritative
    store. *)
Definition Mutate (resourceKey newPayload : string) (s : t) : t :=
  State (entries s)
        (fun k => if String.eqb k resourceKey then newPayload else source s k)
        (version s).

(** Every fingerprint in the cache was issued by the counter. *)
Definition issued_before (s : t) : Prop :=
  forall k e, entries s !! k = Some e -> (fingerprint e < version s)%nat.

(** The fingerprint stored for a resource, if it is cached. *)
Definition stored_fingerprint (s : t) (resourceKey : string) : option nat :=
  fingerprint <$> entries s !! resourceKey.

(** The fingerprint a caller holds after a [Read]: the one returned with the
    payload, or its own on [NotModified]. *)
Definition known_fingerprint (callerFingerprint : option nat) (r : response)
    : option nat :=
  match r with
  | NotModified => callerFingerprint
  | Full _ f => Some f
  end.

(** Modelled from the spec: the state machine of the component.  It starts
    with nothing cached and takes reads, invalidations and mutations of the
    underlying resources in any order. *)
Inductive operation : Type :=
  | DoRead (resourceKey : string) (callerFingerprint : option nat)
  | DoInvalidate (resourceKey : string)
  | DoMutate (resourceKey newPayload : string).

Definition perform (s : t) (o : operation) : t :=
  match o with
  | DoRead k f => snd (Read k f s)
  | DoInvalidate k => Invalidate k s
  | DoMutate k p => Mutate k p s
  end.

Definition initial (source : string -> string) : t := State ∅ source 0.

Definition run (source : string -> string) (ops : list operation) : t :=
  fold_left perform ops (initial source).

(** *** Sample inputs *)

Definition sample_source (k : string) : string := "{}".

Definition sample_resource : string := "device.skill.etag:D".

(** The resource has been read once: it is cached under fingerprint 0. *)
Definition sample_ops : list operation := [DoRead sample_resource None].

End ConditionalStateCache.

(** *** The tape that spells a given code *)

(** The position of a character in [allowed_characters] (22 if absent). *)
Fixpoint position_in (alphabet : list ascii) (c : ascii) : nat :=
  match alphabet with
  | [] => O
  | a :: rest => if Ascii.eqb a c then O else S (position_in rest c)
  end.

(** A tape whose draws from position 0 on pick the characters of [code],
    one after the other. *)
Definition tape_spelling (code : string) : nat -> nat :=
  fun n =>
    position_in (list_ascii_of_string allowed_characters)
      (nth n (list_ascii_of_string code) "A"%char).

(** *** The debug log of the loop *)

(** The two messages a turn hands to [_log.debug]. *)
Definition generated_message (pairing_code : string) : string :=
  "Generated pairing code " ++ pairing_code.

Definition exists_message (pairing_code : string) : string :=
  "Pairing code " ++ pairing_code ++ " exists, generating new code".

Section Logged.

Variable pairing_code_key : string -> string.

(** One turn of the loop with its two calls of [_log.debug]; the second
    comes after the write whatever the write answered. *)
Definition attempt_logged (response_data : pydict) (log : list string)
    : M (bool * pydict * list string) :=
  let* pairing_code := _generate_pairing_code in
  let log := log ++ [generated_message pairing_code] in
  let response_data := dict_update response_data "code" (PyStr pairing_code) in
  let* pairing_code_added :=
    cache_set_if_not_exists_with_expiration
      (pairing_code_key pairing_code) (json.dumps response_data) ONE_DAY in
  let log := log ++ [exists_message pairing_code] in
  ret (pairing_code_added, response_data, log).

Fixpoint pairing_loop_logged (fuel : nat) (response_data : pydict) (log : list string)
    : M (pydict * list string) :=
  match fuel with
  | O => fun w => (Running, w)
  | S fuel' =>
      let* r := attempt_logged response_data log in
      let '(added, response_data', log') := r in
      if added then ret (response_data', log')
      else pairing_loop_logged fuel' response_data' log'
  end.

(** [_build_response] with the messages it has logged. *)
Definition _build_response_logged (fuel : nat) (req : request) : M (pydict * list string) :=
  let* response_data := initial_response req in
  pairing_loop_logged fuel response_data [].

End Logged.

(** The messages of the turns [0 .. n] of a loop entered in world [w]. *)
Definition messages_of_turns (w : world) (n : nat) : list string :=
  flat_map (fun k => [generated_message (code_of_turn w k);
                      exists_message (code_of_turn w k)])
           (seq 0 (S n)).

(** *** Reading a JSON string back *)












(* ===================================================================== *)
(** ** The steps of the skill-settings tests that edit the settings *)
(* ===================================================================== *)

(** [tests/features/steps/device_skills_settings.py].  The steps
    [change_skill_setting_value] and [delete_field_from_settings] edit, in
    place, the settings display data of the skill named [bar] that the test
    context holds.  The data is what JSON text decodes to: a tree of
    dictionaries with string keys, lists, strings, integers, booleans and
    [None], no object being reached by two ways.  Editing a nested object in
    place is modelled by putting the edited object back where it was read
    from. *)

Local Unset Elimination Schemes.

Inductive pyobj : Type :=
  | ONone
  | OBool (b : bool)
  | OInt (n : Z)
  | OStr (s : string)
  | OList (items : list pyobj)
  | ODict (items : list (string * pyobj)).

Local Set Elimination Schemes.

(** What stands between the brackets of [o[k]]. *)
Inductive subscript : Type :=
  | SStr (s : string)
  | SInt (n : Z).

Inductive step_error : Type :=
  | StepKeyError (key : subscript)
  | StepIndexError
  | StepTypeError
  | StepAttributeError.

Inductive checked (A : Type) : Type :=
  | Ok (a : A)
  | Fail (e : step_error).
Arguments Ok {A} a.
Arguments Fail {A} e.

(** Dictionaries as lists of items: the first item with the key counts. *)
Fixpoint assoc_get {V : Type} (d : list (string * V)) (k : string) : option V :=
  match d with
  | [] => None
  | (k', v) :: d' => if String.eqb k' k then Some v else assoc_get d' k
  end.

(** [d[k] = v]: an existing key keeps its place, a new one goes last. *)
Fixpoint assoc_set {V : Type} (d : list (string * V)) (k : string) (v : V)
    : list (string * V) :=
  match d with
  | [] => [(k, v)]
  | (k', v') :: d' =>
      if String.eqb k' k then (k', v) :: d' else (k', v') :: assoc_set d' k v
  end.

(** The position an index denotes in a sequence of [len] items: from the
    end when negative, none when out of range. *)
Definition sequence_index (len : nat) (n : Z) : option nat :=
  let l := Z.of_nat len in
  if (0 <=? n) && (n <? l) then Some (Z.to_nat n)
  else if (n <? 0) && (- l <=? n) then Some (Z.to_nat (l + n))
  else None.

(** [o[k]]. *)
Definition getitem (o : pyobj) (k : subscript) : checked pyobj :=
  match o with
  | ODict d =>
      match k with
      | SStr s =>
          match assoc_get d s with
          | Some v => Ok v
          | None => Fail (StepKeyError k)
          end
      | SInt _ => Fail (StepKeyError k)
      end
  | OList l =>
      match k with
      | SInt n =>
          match sequence_index (length l) n with
          | Some i =>
              match l !! i with
              | Some v => Ok v
              | None => Fail StepIndexError
              end
          | None => Fail StepIndexError
          end
      | SStr _ => Fail StepTypeError
      end
  | OStr s =>
      match k with
      | SInt n =>
          match sequence_index (String.length s) n with
          | Some i =>
              match list_ascii_of_string s !! i with
              | Some c => Ok (OStr (String c EmptyString))
              | None => Fail StepIndexError
              end
          | None => Fail StepIndexError
          end
      | SStr _ => Fail StepTypeError
      end
  | ONone | OBool _ | OInt _ => Fail StepTypeError
  end.

(** [o[k1][k2]...]. *)
Fixpoint read (path : list subscript) (o : pyobj) : checked pyobj :=
  match path with
  | [] => Ok o
  | k :: rest =>
      match getitem o k with
      | Ok child => read rest child
      | Fail e => Fail e
      end
  end.

(** [o[key] = v] for a string [key]; only a dictionary takes it. *)
Definition setitem (o : pyobj) (key : string) (v : pyobj) : checked pyobj :=
  match o with
  | ODict d => Ok (ODict (assoc_set d key v))
  | _ => Fail StepTypeError
  end.

(** [o.pop(n)]: the list without the item, and the item.  A dictionary
    has a [pop] too, which looks for the key [n]; other objects have no such
    attribute. *)
Definition pop (o : pyobj) (n : Z) : checked (pyobj * pyobj) :=
  match o with
  | OList l =>
      match sequence_index (length l) n with
      | Some i =>
          match l !! i with
          | Some v => Ok (OList (delete i l), v)
          | None => Fail StepIndexError
          end
      | None => Fail StepIndexError
      end
  | ODict _ => Fail (StepKeyError (SInt n))
  | _ => Fail StepAttributeError
  end.

(** The container [o] once the object read as [o[k]] has been edited into
    [child]: dictionaries and lists hold the edited object; a string, whose
    items are new strings, is as it was. *)
Definition put (o : pyobj) (k : subscript) (child : pyobj) : pyobj :=
  match o, k with
  | ODict d, SStr s => ODict (assoc_set d s child)
  | OList l, SInt n =>
      match sequence_index (length l) n with
      | Some i => OList (<[i := child]> l)
      | None => o
      end
  | _, _ => o
  end.

(** Reach the object at [path], edit it there with [f]; [f] may hand
    something back (the popped item). *)
Fixpoint edit_at {A : Type} (path : list subscript)
    (f : pyobj -> checked (pyobj * A)) (o : pyobj) : checked (pyobj * A) :=
  match path with
  | [] => f o
  | k :: rest =>
      match getitem o k with
      | Fail e => Fail e
      | Ok child =>
          match edit_at rest f child with
          | Fail e => Fail e
          | Ok (child', a) => Ok (put o k child', a)
          end
      end
  end.

(** [SettingsDisplay], of [selene.data.skill], as far as the steps use it. *)
Record SettingsDisplay : Type := Build_SettingsDisplay { display_data : pyobj }.

Section Steps.

(** The skill entity of [selene.data.skill], which these steps pass by. *)
Variable Skill : Type.

(** The test context as far as these steps use it: [context.skills], from
    name to the pair of a skill and its settings display, and
    [context.removed_field] once it is set. *)
Record context : Type := Context {
  skills : list (string * (Skill * SettingsDisplay));
  removed_field : option pyobj
}.

(** [display_data['skillMetadata']['sections'][0]]['fields']. *)
Definition fields_path : list subscript :=
  [SStr "skillMetadata"; SStr "sections"; SInt 0; SStr "fields"].

(** [...['fields'][1]]. *)
Definition field_path : list subscript := fields_path ++ [SInt 1].

Definition new_value : pyobj := OStr "New device text value".

(** [field_with_value['value'] = 'New device text value']. *)
Definition set_value (field_with_value : pyobj) : checked (pyobj * unit) :=
  match setitem field_with_value "value" new_value with
  | Ok o => Ok (o, tt)
  | Fail e => Fail e
  end.

(** [section['fields'].pop(1)]. *)
Definition pop_second (fields : pyobj) : checked (pyobj * pyobj) := pop fields 1.

Definition change_skill_setting_value (ctx : context) : checked context :=
  match assoc_get (skills ctx) "bar" with
  | None => Fail (StepKeyError (SStr "bar"))
  | Some (skill, bar_settings_display) =>
      match edit_at field_path set_value (display_data bar_settings_display) with
      | Fail e => Fail e
      | Ok (data, _) =>
          Ok (Context
                (assoc_set (skills ctx) "bar" (skill, Build_SettingsDisplay data))
                (removed_field ctx))
      end
  end.

Definition delete_field_from_settings (ctx : context) : checked context :=
  match assoc_get (skills ctx) "bar" with
  | None => Fail (StepKeyError (SStr "bar"))
  | Some (skill, bar_settings_display) =>
      match edit_at fields_path pop_second (display_data bar_settings_display) with
      | Fail e => Fail e
      | Ok (data, removed) =>
          Ok (Context
                (assoc_set (skills ctx) "bar" (skill, Build_SettingsDisplay data))
                (Some removed))
      end
  end.

(** The settings display data of the skill [bar]. *)
Definition bar_data (ctx : context) : option pyobj :=
  match assoc_get (skills ctx) "bar" with
  | Some (_, d) => Some (display_data d)
  | None => None
  end.

End Steps.

Arguments Context {Skill} skills removed_field.
Arguments skills {Skill} c.
Arguments removed_field {Skill} c.
Arguments change_skill_setting_value {Skill} ctx.
Arguments delete_field_from_settings {Skill} ctx.
Arguments bar_data {Skill} ctx.


(** *** Sample settings *)

Definition sample_field (name value : string) : pyobj :=
  ODict [("name", OStr name); ("value", OStr value)].

(** Settings display data whose first section has the given fields. *)
Definition display_data_with (fields : list pyobj) : pyobj :=
  ODict [("skill_gid", OStr "bar-skill|19.02");
         ("skillMetadata",
          ODict [("sections",
                  OList [ODict [("name", OStr "Section");
                                ("fields", OList fields)]])])].

(** A context with the skills [foo] and [bar]. *)
Definition context_with (fields : list pyobj) (removed : option pyobj) : context unit :=
  Context
    [("foo", (tt, Build_SettingsDisplay (ODict [("skill_gid", OStr "foo-skill|19.02")])));
     ("bar", (tt, Build_SettingsDisplay (display_data_with fields)))]
    removed.

Definition sample_context : context unit :=
  context_with [sample_field "label" "";
                sample_field "textfield" "Device text value";
                sample_field "checkbox" "true"] None.

(* ===================================================================== *)
(** * Properties *)
(* ===================================================================== *)

(** ** The library models on known values *)

(** The model of [hashlib.sha512] on the test vector [abc] of FIPS 180-4. *)
Example sha512_abc :
  hashlib.hexdigest (hashlib.update hashlib.sha512 (utf8_encode "abc")) =
  "ddaf35a193617abacc417349ae20413112e6fa4e89a97ea20a9eeee64b55d39a2192992a274fc1a836ba3c23a3feebbd454d4423643ce80e2a9ac94fa54ca49f"%string.
Proof. vm_compute. reflexivity. Qed.

(** [uuid4] forces version and variant: [12d3] becomes [42d3]. *)
Example uuid4_str :
  uuid.str (uuid.uuid4 0x123e4567e89b12d3a456426614174000) =
  "123e4567-e89b-42d3-a456-426614174000"%string.
Proof. vm_compute. reflexivity. Qed.

(** [json.dumps] of a response, character by character. *)
Example dumps_example :
  json.dumps [("state", PyStr "abc-state"); ("token", PyStr "t");
              ("expiration", PyInt 86400); ("code", PyStr "ACEFHJ")]
  = string_of_list_ascii
      (list_ascii_of_string "{" ++ [json.quote] ++ list_ascii_of_string "state"
       ++ [json.quote] ++ list_ascii_of_string ": " ++ [json.quote]
       ++ list_ascii_of_string "abc-state" ++ [json.quote]
       ++ list_ascii_of_string ", " ++ [json.quote] ++ list_ascii_of_string "token"
       ++ [json.quote] ++ list_ascii_of_string ": " ++ [json.quote]
       ++ list_ascii_of_string "t" ++ [json.quote]
       ++ list_ascii_of_string ", " ++ [json.quote]
       ++ list_ascii_of_string "expiration" ++ [json.quote]
       ++ list_ascii_of_string ": 86400, " ++ [json.quote]
       ++ list_ascii_of_string "code" ++ [json.quote] ++ list_ascii_of_string ": "
       ++ [json.quote] ++ list_ascii_of_string "ACEFHJ" ++ [json.quote]
       ++ list_ascii_of_string "}").
Proof. vm_compute. reflexivity. Qed.

(** ** Running the monad *)

Lemma bind_Return {A B : Type} (m : M A) (k : A -> M B) (w w' : world) (b : B) :
  bind m k w = (Return b, w') ->
  exists a w1, m w = (Return a, w1) /\ k a w1 = (Return b, w').
Proof.
  unfold bind. destruct (m w) as [[a | e |] w1]; intros H; try discriminate.
  exists a, w1. split; [reflexivity | exact H].
Qed.

Lemma bind_eq {A B : Type} (m : M A) (k : A -> M B) (w w1 : world) (a : A) :
  m w = (Return a, w1) -> bind m k w = k a w1.
Proof. intros H. unfold bind. rewrite H. reflexivity. Qed.

(** ** Hexadecimal text *)

Lemma hex_digit_lower (n : Z) : 0 <= n < 16 -> is_lower_hex (hex_digit n) = true.
Proof.
  intros Hn. assert (Hc : exists k : nat, (k < 16)%nat /\ n = Z.of_nat k).
  { exists (Z.to_nat n). lia. }
  destruct Hc as (k & Hk & ->). unfold hex_digit. rewrite Nat2Z.id.
  do 16 (destruct k as [| k]; [reflexivity |]). lia.
Qed.

Lemma nibble_high (b : Z) : 0 <= b < 256 -> 0 <= Z.shiftr b 4 < 16.
Proof.
  intros Hb. rewrite Z.shiftr_div_pow2 by lia. change (2 ^ 4) with 16.
  split; [apply Z.div_pos; lia | apply Z.div_lt_upper_bound; lia].
Qed.

Lemma land_ones_bound (x : Z) (n : Z) : 0 <= n -> 0 <= Z.land x (Z.ones n) < 2 ^ n.
Proof. intros Hn. rewrite Z.land_ones by lia. apply Z.mod_pos_bound. lia. Qed.

Lemma nibble_low (b : Z) : 0 <= Z.land b 15 < 16.
Proof. apply (land_ones_bound b 4). lia. Qed.

Lemma to_bytes_big_length (k : nat) (n : Z) : length (to_bytes_big k n) = k.
Proof. induction k as [| k IH]; simpl; [reflexivity | now rewrite IH]. Qed.

Lemma to_bytes_big_range (k : nat) (n : Z) :
  Forall (fun b => 0 <= b < 256) (to_bytes_big k n).
Proof.
  induction k as [| k IH]; simpl; constructor; [| exact IH].
  apply (land_ones_bound _ 8). lia.
Qed.

Lemma hex_of_bytes_length (bs : list Z) :
  length (hex_of_bytes bs) = (2 * length bs)%nat.
Proof.
  unfold hex_of_bytes. induction bs as [| b bs IH]; simpl; [reflexivity |].
  simpl in IH. rewrite IH. lia.
Qed.

Lemma hex_of_bytes_lower (bs : list Z) :
  Forall (fun b => 0 <= b < 256) bs ->
  Forall (fun c => is_lower_hex c = true) (hex_of_bytes bs).
Proof.
  unfold hex_of_bytes. induction 1 as [| b bs Hb _ IH]; simpl; [constructor |].
  constructor; [apply hex_digit_lower, nibble_high, Hb |].
  constructor; [apply hex_digit_lower, nibble_low | exact IH].
Qed.

Lemma string_of_list_length (l : list ascii) :
  String.length (string_of_list_ascii l) = length l.
Proof. induction l as [| c l IH]; simpl; [reflexivity | now rewrite IH]. Qed.

(** ** The digest *)

Lemma regs_bytes_length (h : hashlib.regs) : length (hashlib.regs_bytes h) = 64%nat.
Proof. reflexivity. Qed.

Lemma regs_bytes_range (h : hashlib.regs) :
  Forall (fun b => 0 <= b < 256) (hashlib.regs_bytes h).
Proof.
  unfold hashlib.regs_bytes. cbn [flat_map].
  repeat (apply Forall_app; split); try apply to_bytes_big_range.
  constructor.
Qed.

Lemma digest_length (o : hashlib.sha512_obj) : length (hashlib.digest o) = 64%nat.
Proof. apply regs_bytes_length. Qed.

Lemma hexdigest_length (o : hashlib.sha512_obj) :
  String.length (hashlib.hexdigest o) = 128%nat.
Proof.
  unfold hashlib.hexdigest.
  now rewrite string_of_list_length, hex_of_bytes_length, digest_length.
Qed.

Lemma hexdigest_lower (o : hashlib.sha512_obj) :
  Forall (fun c => is_lower_hex c = true) (list_ascii_of_string (hashlib.hexdigest o)).
Proof.
  unfold hashlib.hexdigest. rewrite list_ascii_of_string_of_list_ascii.
  apply hex_of_bytes_lower, regs_bytes_range.
Qed.

(** ** Python dictionaries *)

Lemma dict_get_update_eq (d : pydict) (k : string) (v : pyval) :
  dict_get (dict_update d k v) k = Some v.
Proof.
  induction d as [| [k' v'] d IH]; simpl.
  - now rewrite String.eqb_refl.
  - destruct (String.eqb k' k) eqn:E; simpl; rewrite E; [reflexivity | exact IH].
Qed.

Lemma dict_get_update_ne (d : pydict) (k k' : string) (v : pyval) :
  k' <> k -> dict_get (dict_update d k v) k' = dict_get d k'.
Proof.
  intros Hne. induction d as [| [k0 v0] d IH]; simpl.
  - destruct (String.eqb k k') eqn:E; [| reflexivity].
    apply String.eqb_eq in E. congruence.
  - destruct (String.eqb k0 k) eqn:E; simpl.
    + apply String.eqb_eq in E. subst k0.
      destruct (String.eqb k k') eqn:E'; [| reflexivity].
      apply String.eqb_eq in E'. congruence.
    + now rewrite IH.
Qed.

Lemma dict_update_update (d : pydict) (k : string) (v v' : pyval) :
  dict_update (dict_update d k v) k v' = dict_update d k v'.
Proof.
  induction d as [| [k0 v0] d IH]; simpl.
  - now rewrite String.eqb_refl.
  - destruct (String.eqb k0 k) eqn:E; simpl; rewrite E; [reflexivity | now rewrite IH].
Qed.

(** ** Pairing codes *)

Lemma drawn_character_allowed (r : nat) :
  In (drawn_character r) (list_ascii_of_string allowed_characters).
Proof.
  unfold drawn_character. apply nth_In.
  change (length (list_ascii_of_string allowed_characters)) with 22%nat.
  apply Nat.mod_upper_bound. discriminate.
Qed.

Lemma code_at_length (tape : nat -> nat) (pos : nat) :
  String.length (code_at tape pos) = 6%nat.
Proof. unfold code_at. now rewrite string_of_list_length, length_map, length_seq. Qed.

Lemma code_at_allowed (tape : nat -> nat) (pos : nat) :
  Forall (fun c => In c (list_ascii_of_string allowed_characters))
         (list_ascii_of_string (code_at tape pos)).
Proof.
  unfold code_at. rewrite list_ascii_of_string_of_list_ascii.
  apply List.Forall_forall. intros c Hc. apply in_map_iff in Hc.
  destruct Hc as (i & <- & _). apply drawn_character_allowed.
Qed.

Lemma generate_pairing_code_run (w : world) :
  _generate_pairing_code w = (Return (code_at (choices w) (drawn w)), after_draws 6 w).
Proof. destruct w. reflexivity. Qed.

Lemma generate_token_run (w : world) :
  _generate_token w =
  (Return (hashlib.hexdigest
             (hashlib.update hashlib.sha512
                (utf8_encode (uuid.str (uuid.uuid4 (urandom w (delivered w) mod 2 ^ 128)))))),
   World (cache w) (choices w) (drawn w) (urandom w) (S (delivered w))).
Proof. reflexivity. Qed.

(** ** The conditional write *)

Lemma set_if_not_exists_free (c : SeleneCache.t) (key value : string) (ttl : Z) :
  SeleneCache.get c key = None ->
  SeleneCache.set_if_not_exists_with_expiration c key value ttl =
  (true, SeleneCache.Cache
           (<[key := SeleneCache.Entry value (SeleneCache.clock c + ttl)]>
              (SeleneCache.store c))
           (SeleneCache.clock c)).
Proof.
  intros H. unfold SeleneCache.set_if_not_exists_with_expiration. now rewrite H.
Qed.

Lemma set_if_not_exists_taken (c : SeleneCache.t) (key value : string) (ttl : Z) :
  is_Some (SeleneCache.get c key) ->
  SeleneCache.set_if_not_exists_with_expiration c key value ttl = (false, c).
Proof.
  intros [e H]. unfold SeleneCache.set_if_not_exists_with_expiration. now rewrite H.
Qed.

Lemma set_if_not_exists_true_inv (c c' : SeleneCache.t) (key value : string) (ttl : Z) :
  SeleneCache.set_if_not_exists_with_expiration c key value ttl = (true, c') ->
  SeleneCache.get c key = None /\
  c' = SeleneCache.Cache
         (<[key := SeleneCache.Entry value (SeleneCache.clock c + ttl)]>
            (SeleneCache.store c))
         (SeleneCache.clock c).
Proof.
  unfold SeleneCache.set_if_not_exists_with_expiration.
  destruct (SeleneCache.get c key); intros H; inversion H; auto.
Qed.

Lemma set_if_not_exists_false_inv (c c' : SeleneCache.t) (key value : string) (ttl : Z) :
  SeleneCache.set_if_not_exists_with_expiration c key value ttl = (false, c') ->
  is_Some (SeleneCache.get c key) /\ c' = c.
Proof.
  unfold SeleneCache.set_if_not_exists_with_expiration.
  destruct (SeleneCache.get c key) eqn:E; intros H; inversion H; eauto.
Qed.

Section Sequential.

Variable pairing_code_key : string -> string.

(** One turn, in closed form. *)
Lemma attempt_run (response_data : pydict) (w : world) :
  let code := code_at (choices w) (drawn w) in
  let response_data' := dict_update response_data "code" (PyStr code) in
  let r := SeleneCache.set_if_not_exists_with_expiration
             (cache w) (pairing_code_key code) (json.dumps response_data') ONE_DAY in
  attempt pairing_code_key response_data w =
  (Return (fst r, response_data'),
   World (snd r) (choices w) (6 + drawn w) (urandom w) (delivered w)).
Proof.
  intros code response_data' r. unfold attempt.
  rewrite (bind_eq _ _ _ _ _ (generate_pairing_code_run w)).
  unfold bind, cache_set_if_not_exists_with_expiration, ret. cbn [cache after_draws].
  fold code. fold response_data'. fold r. destruct r as [added c]. reflexivity.
Qed.

Lemma code_of_turn_0 (w : world) : code_of_turn w 0 = code_at (choices w) (drawn w).
Proof. reflexivity. Qed.

Lemma code_of_turn_S (w : world) (k : nat) :
  code_of_turn (after_draws 6 w) k = code_of_turn w (S k).
Proof. unfold code_of_turn, after_draws. cbn [choices drawn]. f_equal. lia. Qed.

(** A turn whose key is taken: the loop goes round again, the cache as it
    was, six draws further on the tape. *)
Lemma loop_turn_taken (fuel : nat) (response_data : pydict) (w : world) :
  occupied pairing_code_key w 0 ->
  pairing_loop pairing_code_key (S fuel) response_data w =
  pairing_loop pairing_code_key fuel (dict_update response_data "code" (PyStr (code_of_turn w 0)))
    (after_draws 6 w).
Proof.
  intros Hocc. cbn [pairing_loop].
  rewrite (bind_eq _ _ _ _ _ (attempt_run response_data w)).
  rewrite set_if_not_exists_taken by exact Hocc. reflexivity.
Qed.

(** A turn whose key is free: the loop returns. *)
Lemma loop_turn_free (fuel : nat) (response_data : pydict) (w : world) :
  SeleneCache.get (cache w) (pairing_code_key (code_of_turn w 0)) = None ->
  let response_data' := dict_update response_data "code" (PyStr (code_of_turn w 0)) in
  pairing_loop pairing_code_key (S fuel) response_data w =
  (Return response_data', world_after_success pairing_code_key w 0 response_data').
Proof.
  intros Hfree rd'. cbn [pairing_loop].
  rewrite (bind_eq _ _ _ _ _ (attempt_run response_data w)).
  rewrite code_of_turn_0 in Hfree.
  rewrite (set_if_not_exists_free _ _ _ _ Hfree). reflexivity.
Qed.

(** [n] collisions, then a free key: with more than [n] turns of fuel the
    loop returns the response carrying the code of turn [n]. *)
Lemma pairing_loop_returns (n : nat) :
  forall (fuel : nat) (response_data : pydict) (w : world),
    (forall k, (k < n)%nat -> occupied pairing_code_key w k) ->
    SeleneCache.get (cache w) (pairing_code_key (code_of_turn w n)) = None ->
    (n < fuel)%nat ->
    let response_data' := dict_update response_data "code" (PyStr (code_of_turn w n)) in
    pairing_loop pairing_code_key fuel response_data w =
    (Return response_data', world_after_success pairing_code_key w n response_data').
Proof.
  induction n as [| n IH]; intros fuel rd w Hocc Hfree Hfuel rd';
    destruct fuel as [| fuel]; try lia.
  - now apply loop_turn_free.
  - rewrite loop_turn_taken by (apply Hocc; lia).
    rewrite (IH fuel _ (after_draws 6 w)).
    + subst rd'. rewrite code_of_turn_S, dict_update_update.
      unfold world_after_success. rewrite code_of_turn_S.
      cbn [after_draws cache choices drawn urandom delivered].
      replace (6 * S n + (6 + drawn w))%nat with (6 * S (S n) + drawn w)%nat by lia.
      reflexivity.
    + intros k Hk. unfold occupied. rewrite code_of_turn_S.
      apply Hocc. lia.
    + rewrite code_of_turn_S. exact Hfree.
    + lia.
Qed.

(** While every key drawn is taken the loop keeps turning and writes
    nothing. *)
Lemma pairing_loop_turning (fuel : nat) :
  forall (response_data : pydict) (w : world),
    (forall k, (k < fuel)%nat -> occupied pairing_code_key w k) ->
    pairing_loop pairing_code_key fuel response_data w = (Running, after_draws (6 * fuel) w).
Proof.
  induction fuel as [| fuel IH]; intros rd w Hocc.
  - destruct w. reflexivity.
  - rewrite loop_turn_taken by (apply Hocc; lia).
    rewrite IH.
    + unfold after_draws. cbn [cache choices drawn urandom delivered].
      replace (6 * fuel + (6 + drawn w))%nat with (6 * S fuel + drawn w)%nat by lia.
      reflexivity.
    + intros k Hk. unfold occupied. rewrite code_of_turn_S.
      apply Hocc. lia.
Qed.

(** The key of every turn is either taken or free. *)
Lemma occupied_dec (w : world) (k : nat) :
  occupied pairing_code_key w k \/
  SeleneCache.get (cache w) (pairing_code_key (code_of_turn w k)) = None.
Proof.
  unfold occupied.
  destruct (SeleneCache.get (cache w) (pairing_code_key (code_of_turn w k)));
    [left; eauto | right; reflexivity].
Qed.

(** Within [fuel] turns, either some first turn finds its key free or all
    of them collide. *)
Lemma first_free_turn (w : world) (fuel : nat) :
  (exists n, (n < fuel)%nat /\ (forall k, (k < n)%nat -> occupied pairing_code_key w k) /\
     SeleneCache.get (cache w) (pairing_code_key (code_of_turn w n)) = None) \/
  (forall k, (k < fuel)%nat -> occupied pairing_code_key w k).
Proof.
  induction fuel as [| fuel IH].
  - right. intros k Hk. lia.
  - destruct IH as [(n & Hn & Hocc & Hfree) | Hall].
    + left. exists n. split; [lia | auto].
    + destruct (occupied_dec w fuel) as [Ho | Hf].
      * right. intros k Hk. destruct (decide (k = fuel)) as [-> | Hne]; [exact Ho |].
        apply Hall. lia.
      * left. exists fuel. split; [lia | auto].
Qed.

(** If the loop has returned, some turn found its key free after
    collisions on all the turns before it. *)
Lemma pairing_loop_Return_inv (fuel : nat) (response_data rd' : pydict) (w w' : world) :
  pairing_loop pairing_code_key fuel response_data w = (Return rd', w') ->
  exists n, (n < fuel)%nat /\
    (forall k, (k < n)%nat -> occupied pairing_code_key w k) /\
    SeleneCache.get (cache w) (pairing_code_key (code_of_turn w n)) = None /\
    rd' = dict_update response_data "code" (PyStr (code_of_turn w n)) /\
    w' = world_after_success pairing_code_key w n rd'.
Proof.
  intros Hrun. destruct (first_free_turn w fuel) as [(n & Hn & Hocc & Hfree) | Hall].
  - exists n. rewrite (pairing_loop_returns n fuel response_data w Hocc Hfree Hn) in Hrun.
    inversion Hrun; subst. auto.
  - rewrite (pairing_loop_turning fuel response_data w Hall) in Hrun. discriminate.
Qed.

End Sequential.

(** ** The whole call *)

Section Call.

Variable pairing_code_key : string -> string.

Lemma initial_response_run (req : request) (state : string) (w : world) :
  args req !! "state" = Some state ->
  initial_response req w = (Return (response_before_loop state w), world_before_loop w).
Proof.
  intros Hs. unfold initial_response, request_arg. rewrite Hs. reflexivity.
Qed.

Lemma build_response_enters_loop (fuel : nat) (req : request) (state : string) (w : world) :
  args req !! "state" = Some state ->
  _build_response pairing_code_key fuel req w =
  pairing_loop pairing_code_key fuel (response_before_loop state w) (world_before_loop w).
Proof.
  intros Hs. unfold _build_response.
  now rewrite (bind_eq _ _ _ _ _ (initial_response_run req state w Hs)).
Qed.

(** Without a [state] argument the call raises before anything is drawn or
    written. *)
Lemma build_response_missing_state (fuel : nat) (req : request) (w : world) :
  args req !! "state" = None ->
  _build_response pairing_code_key fuel req w = (Raise (KeyError "state"), w).
Proof.
  intros Hs. unfold _build_response, initial_response, request_arg, bind.
  rewrite Hs. reflexivity.
Qed.

(** A call that has returned went through the loop and left it at the first
    turn, say [n], whose key was free. *)
Lemma build_response_Return_inv (fuel : nat) (req : request) (w w' : world) (rd : pydict) :
  _build_response pairing_code_key fuel req w = (Return rd, w') ->
  exists state n,
    args req !! "state" = Some state /\
    (n < fuel)%nat /\
    (forall k, (k < n)%nat -> occupied pairing_code_key (world_before_loop w) k) /\
    SeleneCache.get (cache w)
      (pairing_code_key (code_of_turn (world_before_loop w) n)) = None /\
    rd = dict_update (response_before_loop state w) "code"
           (PyStr (code_of_turn (world_before_loop w) n)) /\
    w' = world_after_success pairing_code_key (world_before_loop w) n rd.
Proof.
  intros Hrun. destruct (args req !! "state") as [state |] eqn:Hs.
  - rewrite (build_response_enters_loop fuel req state w Hs) in Hrun.
    apply pairing_loop_Return_inv in Hrun.
    destruct Hrun as (n & Hn & Hocc & Hfree & Hrd & Hw).
    exists state, n. auto 10.
  - rewrite (build_response_missing_state fuel req w Hs) in Hrun. discriminate.
Qed.

(** The response a returned call carries, item by item. *)
Lemma returned_response_items (state : string) (w : world) (code : string) :
  dict_update (response_before_loop state w) "code" (PyStr code) =
  [("state", PyStr state);
   ("token", PyStr (token_of (urandom w (delivered w) mod 2 ^ 128)));
   ("expiration", PyInt ONE_DAY);
   ("code", PyStr code)].
Proof. reflexivity. Qed.

End Call.

(** ** C2: the code *)

(** C2. Whenever a call of [_build_response] returns, the response carries
    under ["code"] a string of exactly six characters, each of them one of
    the 22 characters of ["ACEFHJKLMNPRTUVWXY3479"]. *)
Theorem issued_code_six_allowed_characters
    (pairing_code_key : string -> string) (fuel : nat) (req : request)
    (w w' : world) (rd : pydict) :
  _build_response pairing_code_key fuel req w = (Return rd, w') ->
  exists code,
    dict_get rd "code" = Some (PyStr code) /\
    String.length code = 6%nat /\
    Forall (fun c => In c (list_ascii_of_string allowed_characters))
           (list_ascii_of_string code) /\
    allowed_characters = "ACEFHJKLMNPRTUVWXY3479"%string /\
    String.length allowed_characters = 22%nat.
Proof.
  intros Hrun. apply build_response_Return_inv in Hrun.
  destruct Hrun as (state & n & _ & _ & _ & _ & -> & _).
  exists (code_of_turn (world_before_loop w) n).
  split; [apply dict_get_update_eq |].
  split; [apply code_at_length |].
  split; [apply code_at_allowed |].
  split; reflexivity.
Qed.

Lemma issued_code_six_allowed_characters_witness :
  _build_response sample_key 1 sample_request sample_world =
    (Return (sample_response "ACEFHJ"),
     snd (_build_response sample_key 1 sample_request sample_world)) /\
  exists code,
    dict_get (sample_response "ACEFHJ") "code" = Some (PyStr code) /\
    String.length code = 6%nat /\
    Forall (fun c => In c (list_ascii_of_string allowed_characters))
           (list_ascii_of_string code) /\
    allowed_characters = "ACEFHJKLMNPRTUVWXY3479"%string /\
    String.length allowed_characters = 22%nat.
Proof.
  assert (H : _build_response sample_key 1 sample_request sample_world =
              (Return (sample_response "ACEFHJ"),
               snd (_build_response sample_key 1 sample_request sample_world))).
  { vm_compute. reflexivity. }
  split; [exact H |].
  exact (issued_code_six_allowed_characters sample_key 1 sample_request sample_world
           _ _ H).
Defined.

(** ** C4: the token *)

(** C4. Whenever a call of [_build_response] returns, the response carries
    under ["token"] a string of 128 characters, all of them lowercase
    hexadecimal digits: the hex encoding of the 64-byte (512-bit) SHA-512
    digest of the UTF-8 text of a uuid4. *)
Theorem issued_token_is_sha512_hex
    (pairing_code_key : string -> string) (fuel : nat) (req : request)
    (w w' : world) (rd : pydict) :
  _build_response pairing_code_key fuel req w = (Return rd, w') ->
  exists (token : string) (u : uuid.UUID) (h : hashlib.sha512_obj),
    dict_get rd "token" = Some (PyStr token) /\
    String.length token = 128%nat /\
    Forall (fun c => is_lower_hex c = true) (list_ascii_of_string token) /\
    u = uuid.uuid4 (urandom w (delivered w) mod 2 ^ 128) /\
    h = hashlib.update hashlib.sha512 (utf8_encode (uuid.str u)) /\
    length (hashlib.digest h) = 64%nat /\
    token = string_of_list_ascii (hex_of_bytes (hashlib.digest h)).
Proof.
  intros Hrun. apply build_response_Return_inv in Hrun.
  destruct Hrun as (state & n & _ & _ & _ & _ & -> & _).
  rewrite returned_response_items.
  eexists _, _, _. split; [reflexivity |].
  split; [apply hexdigest_length |].
  split; [apply hexdigest_lower |].
  split; [reflexivity |]. split; [reflexivity |].
  split; [apply digest_length | reflexivity].
Qed.

Lemma issued_token_is_sha512_hex_witness :
  _build_response sample_key 1 sample_request sample_world =
    (Return (sample_response "ACEFHJ"),
     snd (_build_response sample_key 1 sample_request sample_world)) /\
  exists (token : string) (u : uuid.UUID) (h : hashlib.sha512_obj),
    dict_get (sample_response "ACEFHJ") "token" = Some (PyStr token) /\
    String.length token = 128%nat /\
    Forall (fun c => is_lower_hex c = true) (list_ascii_of_string token) /\
    u = uuid.uuid4 (urandom sample_world (delivered sample_world) mod 2 ^ 128) /\
    h = hashlib.update hashlib.sha512 (utf8_encode (uuid.str u)) /\
    length (hashlib.digest h) = 64%nat /\
    token = string_of_list_ascii (hex_of_bytes (hashlib.digest h)).
Proof.
  assert (H : _build_response sample_key 1 sample_request sample_world =
              (Return (sample_response "ACEFHJ"),
               snd (_build_response sample_key 1 sample_request sample_world))).
  { vm_compute. reflexivity. }
  split; [exact H |].
  exact (issued_token_is_sha512_hex sample_key 1 sample_request sample_world _ _ H).
Defined.

(** ** C3: retrying on collision *)

(** C3. In a call that has its [state] argument: (1) a turn whose
    conditional write fails because the key is taken leaves the cache as it
    was and is followed by a turn with a freshly drawn code; (2) the call
    returns only if the write of some turn succeeded, all turns before it
    having collided; (3) it does return, at the first turn whose key is
    free, however many turns collided before; (4) there is no bound on the
    turns: as long as every drawn key is taken the call is still running. *)
Theorem retry_until_write_succeeds
    (pairing_code_key : string -> string) (req : request) (state : string) (w : world) :
  args req !! "state" = Some state ->
  let rd0 := response_before_loop state w in
  let w0 := world_before_loop w in
  (forall fuel,
      occupied pairing_code_key w0 0 ->
      _build_response pairing_code_key (S fuel) req w =
      pairing_loop pairing_code_key fuel
        (dict_update rd0 "code" (PyStr (code_of_turn w0 0))) (after_draws 6 w0) /\
      cache (after_draws 6 w0) = cache w /\
      code_of_turn (after_draws 6 w0) 0 = code_at (choices w) (6 + drawn w)) /\
  (forall fuel rd w',
      _build_response pairing_code_key fuel req w = (Return rd, w') ->
      exists n, (n < fuel)%nat /\
        (forall k, (k < n)%nat -> occupied pairing_code_key w0 k) /\
        SeleneCache.set_if_not_exists_with_expiration (cache w)
          (pairing_code_key (code_of_turn w0 n)) (json.dumps rd) ONE_DAY =
          (true, cache w') /\
        rd = dict_update rd0 "code" (PyStr (code_of_turn w0 n))) /\
  (forall n fuel,
      (forall k, (k < n)%nat -> occupied pairing_code_key w0 k) ->
      SeleneCache.get (cache w) (pairing_code_key (code_of_turn w0 n)) = None ->
      (n < fuel)%nat ->
      let rd := dict_update rd0 "code" (PyStr (code_of_turn w0 n)) in
      _build_response pairing_code_key fuel req w =
      (Return rd, world_after_success pairing_code_key w0 n rd)) /\
  (forall fuel,
      (forall k, (k < fuel)%nat -> occupied pairing_code_key w0 k) ->
      _build_response pairing_code_key fuel req w = (Running, after_draws (6 * fuel) w0)).
Proof.
  intros Hs rd0 w0. split; [| split; [| split]].
  - intros fuel Hocc. split; [| split; [reflexivity |]].
    + rewrite (build_response_enters_loop _ _ _ _ _ Hs). now apply loop_turn_taken.
    + unfold code_of_turn. reflexivity.
  - intros fuel rd w' H.
    rewrite (build_response_enters_loop _ _ _ _ _ Hs) in H.
    apply pairing_loop_Return_inv in H.
    destruct H as (n & Hn & Hocc & Hfree & Hrd & Hw).
    exists n. split; [exact Hn |]. split; [exact Hocc |]. split; [| exact Hrd].
    subst w'. now rewrite (set_if_not_exists_free _ _ _ _ Hfree).
  - intros n fuel Hocc Hfree Hn rd.
    rewrite (build_response_enters_loop _ _ _ _ _ Hs).
    now apply pairing_loop_returns.
  - intros fuel Hocc. rewrite (build_response_enters_loop _ _ _ _ _ Hs).
    now apply pairing_loop_turning.
Qed.

Lemma retry_until_write_succeeds_witness :
  args sample_request !! "state" = Some "abc-state"%string /\
  _build_response sample_key 1 sample_request crowded_world =
    (Running, after_draws 6 (world_before_loop crowded_world)) /\
  _build_response sample_key 2 sample_request crowded_world =
    (Return (sample_response "KLMNPR"),
     world_after_success sample_key (world_before_loop crowded_world) 1
       (sample_response "KLMNPR")).
Proof.
  assert (Hs : args sample_request !! "state" = Some "abc-state"%string)
    by (vm_compute; reflexivity).
  assert (Hocc : forall k, (k < 1)%nat ->
            occupied sample_key (world_before_loop crowded_world) k).
  { intros k Hk. assert (k = 0%nat) as -> by lia. vm_compute. eauto. }
  destruct (retry_until_write_succeeds sample_key sample_request _ crowded_world Hs)
    as (_ & _ & Hret & Hrun).
  split; [exact Hs |]. split.
  - exact (Hrun 1%nat Hocc).
  - refine (eq_trans (Hret 1%nat 2%nat Hocc _ _) _).
    + vm_compute. reflexivity.
    + lia.
    + vm_compute. reflexivity.
Defined.

(** ** C5: state, expiration and the stored session *)

Lemma get_after_tick (c : SeleneCache.t) (key : string) (e : SeleneCache.entry) (d : Z) :
  SeleneCache.store c !! key = Some e ->
  SeleneCache.get (SeleneCache.tick c d) key =
  if SeleneCache.clock c + d <? SeleneCache.expires_at e then Some e else None.
Proof.
  intros H. unfold SeleneCache.get, SeleneCache.tick.
  cbn [SeleneCache.store SeleneCache.clock]. now rewrite H.
Qed.

(** C5. Whenever a call of [_build_response] with [state] argument [s]
    returns, the response has [state] equal to [s] and [expiration] equal to
    86400, and the cache holds, under the key made from the code of the
    response, the serialized response with a time to live of 86400 seconds:
    it can be read during the 86400 seconds after the call and no longer
    from then on. *)
Theorem response_state_expiration_and_stored_session
    (pairing_code_key : string -> string) (fuel : nat) (req : request) (s : string)
    (w w' : world) (rd : pydict) :
  args req !! "state" = Some s ->
  _build_response pairing_code_key fuel req w = (Return rd, w') ->
  dict_get rd "state" = Some (PyStr s) /\
  dict_get rd "expiration" = Some (PyInt 86400) /\
  exists code,
    dict_get rd "code" = Some (PyStr code) /\
    SeleneCache.store (cache w') !! pairing_code_key code =
      Some (SeleneCache.Entry (json.dumps rd) (SeleneCache.clock (cache w) + 86400)) /\
    SeleneCache.clock (cache w') = SeleneCache.clock (cache w) /\
    (forall d, 0 <= d < 86400 ->
       SeleneCache.get (SeleneCache.tick (cache w') d) (pairing_code_key code) =
       Some (SeleneCache.Entry (json.dumps rd) (SeleneCache.clock (cache w) + 86400))) /\
    (forall d, 86400 <= d ->
       SeleneCache.get (SeleneCache.tick (cache w') d) (pairing_code_key code) = None).
Proof.
  intros Hs Hrun. apply build_response_Return_inv in Hrun.
  destruct Hrun as (state & n & Hs' & _ & _ & _ & Hrd & ->).
  assert (state = s) as -> by congruence.
  set (code := code_of_turn (world_before_loop w) n) in *.
  assert (Hstored :
    SeleneCache.store (cache (world_after_success pairing_code_key (world_before_loop w) n rd))
      !! pairing_code_key code =
    Some (SeleneCache.Entry (json.dumps rd) (SeleneCache.clock (cache w) + 86400))).
  { unfold world_after_success. cbn [cache SeleneCache.store world_before_loop].
    apply lookup_insert_eq. }
  split; [subst rd; reflexivity |]. split; [subst rd; reflexivity |].
  exists code. split; [subst rd; apply dict_get_update_eq |].
  split; [exact Hstored |]. split; [reflexivity |]. split.
  - intros d Hd. rewrite (get_after_tick _ _ _ d Hstored).
    cbn [SeleneCache.expires_at world_after_success cache SeleneCache.clock world_before_loop].
    destruct (Z.ltb_spec (SeleneCache.clock (cache w) + d)
                (SeleneCache.clock (cache w) + 86400)); [reflexivity | lia].
  - intros d Hd. rewrite (get_after_tick _ _ _ d Hstored).
    cbn [SeleneCache.expires_at world_after_success cache SeleneCache.clock world_before_loop].
    destruct (Z.ltb_spec (SeleneCache.clock (cache w) + d)
                (SeleneCache.clock (cache w) + 86400)); [lia | reflexivity].
Qed.

Lemma response_state_expiration_and_stored_session_witness :
  args sample_request !! "state" = Some "abc-state"%string /\
  _build_response sample_key 1 sample_request sample_world =
    (Return (sample_response "ACEFHJ"),
     world_after_success sample_key (world_before_loop sample_world) 0
       (sample_response "ACEFHJ")) /\
  dict_get (sample_response "ACEFHJ") "state" = Some (PyStr "abc-state") /\
  dict_get (sample_response "ACEFHJ") "expiration" = Some (PyInt 86400).
Proof.
  assert (Hs : args sample_request !! "state" = Some "abc-state"%string)
    by (vm_compute; reflexivity).
  assert (H : _build_response sample_key 1 sample_request sample_world =
    (Return (sample_response "ACEFHJ"),
     world_after_success sample_key (world_before_loop sample_world) 0
       (sample_response "ACEFHJ"))) by (vm_compute; reflexivity).
  destruct (response_state_expiration_and_stored_session
              sample_key 1 sample_request _ sample_world _ _ Hs H) as (H1 & H2 & _).
  auto.
Defined.

(** ** C9: the stored value is the returned response *)

Lemma escape_allowed_character (c : ascii) :
  In c (list_ascii_of_string allowed_characters) -> json.escape_char c = [c].
Proof.
  intros H. cbv [allowed_characters list_ascii_of_string] in H.
  repeat (destruct H as [<- | H]; [reflexivity |]). destruct H.
Qed.

Lemma escape_allowed_characters (l : list ascii) :
  Forall (fun c => In c (list_ascii_of_string allowed_characters)) l ->
  flat_map json.escape_char l = l.
Proof.
  induction 1 as [| c l Hc _ IH]; [reflexivity |].
  cbn [flat_map]. rewrite (escape_allowed_character c Hc), IH. reflexivity.
Qed.

(** The text [json.dumps] makes of a returned response ends with the item
    of the code, spelled as it is. *)
Lemma dumps_ends_with_code (a b c : string * pyval) (tape : nat -> nat) (pos : nat) :
  exists prefix,
    list_ascii_of_string (json.dumps [a; b; c; ("code", PyStr (code_at tape pos))]) =
    prefix ++ [json.quote] ++ list_ascii_of_string "code" ++ [json.quote]
      ++ list_ascii_of_string ": " ++ [json.quote]
      ++ list_ascii_of_string (code_at tape pos) ++ [json.quote; "}"%char].
Proof.
  exists (["{"%char] ++ json.encode_item a ++ list_ascii_of_string ", "
          ++ json.encode_item b ++ list_ascii_of_string ", "
          ++ json.encode_item c ++ list_ascii_of_string ", ").
  unfold json.dumps. rewrite list_ascii_of_string_of_list_ascii.
  cbn [map json.join]. unfold json.encode_item at 4. cbn [fst snd json.encode].
  unfold json.encode_str at 2.
  rewrite (escape_allowed_characters _ (code_at_allowed tape pos)).
  change (json.encode_str "code")
    with ([json.quote] ++ list_ascii_of_string "code" ++ [json.quote]).
  rewrite <- !app_assoc. reflexivity.
Qed.

(** C9. Whenever a call of [_build_response] returns, the value the cache
    holds under the key made from the code of the response is
    [json.dumps] of exactly the returned response; the text ends with the
    ["code"] item, whose value is the very code the key is made from. *)
Theorem stored_value_is_returned_response
    (pairing_code_key : string -> string) (fuel : nat) (req : request)
    (w w' : world) (rd : pydict) :
  _build_response pairing_code_key fuel req w = (Return rd, w') ->
  exists code e,
    dict_get rd "code" = Some (PyStr code) /\
    SeleneCache.get (cache w') (pairing_code_key code) = Some e /\
    SeleneCache.value e = json.dumps rd /\
    exists prefix,
      list_ascii_of_string (SeleneCache.value e) =
      prefix ++ [json.quote] ++ list_ascii_of_string "code" ++ [json.quote]
        ++ list_ascii_of_string ": " ++ [json.quote]
        ++ list_ascii_of_string code ++ [json.quote; "}"%char].
Proof.
  intros Hrun. apply build_response_Return_inv in Hrun.
  destruct Hrun as (state & n & _ & _ & _ & _ & Hrd & ->).
  set (code := code_of_turn (world_before_loop w) n) in *.
  exists code, (SeleneCache.Entry (json.dumps rd) (SeleneCache.clock (cache w) + ONE_DAY)).
  split; [subst rd; apply dict_get_update_eq |]. split.
  - unfold SeleneCache.get, world_after_success.
    cbn [cache SeleneCache.store SeleneCache.clock world_before_loop].
    fold code. rewrite lookup_insert_eq. cbn [SeleneCache.expires_at].
    destruct (Z.ltb_spec (SeleneCache.clock (cache w))
                (SeleneCache.clock (cache w) + ONE_DAY)) as [_ | Hge];
      [reflexivity | unfold ONE_DAY in Hge; lia].
  - split; [reflexivity |]. cbn [SeleneCache.value].
    rewrite Hrd, returned_response_items. apply dumps_ends_with_code.
Qed.

Lemma stored_value_is_returned_response_witness :
  _build_response sample_key 1 sample_request sample_world =
    (Return (sample_response "ACEFHJ"),
     snd (_build_response sample_key 1 sample_request sample_world)) /\
  exists code e,
    dict_get (sample_response "ACEFHJ") "code" = Some (PyStr code) /\
    SeleneCache.get
      (cache (snd (_build_response sample_key 1 sample_request sample_world)))
      (sample_key code) = Some e /\
    SeleneCache.value e = json.dumps (sample_response "ACEFHJ").
Proof.
  assert (H : _build_response sample_key 1 sample_request sample_world =
              (Return (sample_response "ACEFHJ"),
               snd (_build_response sample_key 1 sample_request sample_world))).
  { vm_compute. reflexivity. }
  split; [exact H |].
  destruct (stored_value_is_returned_response sample_key 1 sample_request
              sample_world _ _ H) as (code & e & H1 & H2 & H3 & _).
  exists code, e. auto.
Defined.

(** ** C10: what the retries leave alone *)

Lemma attempt_changes_only_code
    (pairing_code_key : string -> string) (rd rd' : pydict) (w w' : world) (added : bool) :
  attempt pairing_code_key rd w = (Return (added, rd'), w') ->
  rd' = dict_update rd "code" (PyStr (code_at (choices w) (drawn w))) /\
  (forall k, k <> "code"%string -> dict_get rd' k = dict_get rd k) /\
  urandom w' = urandom w /\ delivered w' = delivered w.
Proof.
  rewrite attempt_run. intros H. inversion H; subst.
  split; [reflexivity |]. split; [| split; reflexivity].
  intros k Hk. now apply dict_get_update_ne.
Qed.

(** C10. [state], [token] and [expiration] are put in the response once,
    before the loop; a turn of the loop changes the ["code"] entry and no
    other; so the returned response agrees with the response built before
    the loop on every key but ["code"], and two calls given the same request
    and the same random block for the token return the same token, state and
    expiration however many collisions each of them met. *)
Theorem retries_change_only_code
    (pairing_code_key : string -> string) (fuel : nat) (req : request)
    (w w' : world) (rd : pydict) :
  _build_response pairing_code_key fuel req w = (Return rd, w') ->
  (exists state n,
     args req !! "state" = Some state /\
     (forall k, (k < n)%nat -> occupied pairing_code_key (world_before_loop w) k) /\
     rd = dict_update (response_before_loop state w) "code"
            (PyStr (code_of_turn (world_before_loop w) n)) /\
     (forall k, k <> "code"%string ->
        dict_get rd k = dict_get (response_before_loop state w) k) /\
     dict_get rd "state" = Some (PyStr state) /\
     dict_get rd "token" = Some (PyStr (token_of (urandom w (delivered w) mod 2 ^ 128))) /\
     dict_get rd "expiration" = Some (PyInt ONE_DAY)) /\
  (forall rd1 rd2 w1 w2 added,
     attempt pairing_code_key rd1 w1 = (Return (added, rd2), w2) ->
     forall k, k <> "code"%string -> dict_get rd2 k = dict_get rd1 k) /\
  (forall fuel2 w2 w2' rd2,
     urandom w2 (delivered w2) = urandom w (delivered w) ->
     _build_response pairing_code_key fuel2 req w2 = (Return rd2, w2') ->
     forall k, k <> "code"%string -> dict_get rd2 k = dict_get rd k).
Proof.
  intros Hrun. apply build_response_Return_inv in Hrun.
  destruct Hrun as (state & n & Hs & _ & Hocc & _ & Hrd & _).
  split; [| split].
  - exists state, n. split; [exact Hs |]. split; [exact Hocc |].
    split; [exact Hrd |]. subst rd.
    split; [intros k Hk; now apply dict_get_update_ne |].
    repeat split.
  - intros rd1 rd2 w1 w2 added Hat k Hk.
    now apply (attempt_changes_only_code _ _ _ _ _ _ Hat).
  - intros fuel2 w2 w2' rd2 Hu Hrun2 k Hk.
    apply build_response_Return_inv in Hrun2.
    destruct Hrun2 as (state2 & n2 & Hs2 & _ & _ & _ & Hrd2 & _).
    assert (state2 = state) as -> by congruence.
    subst rd rd2. rewrite !dict_get_update_ne by exact Hk.
    unfold response_before_loop. now rewrite Hu.
Qed.

Lemma retries_change_only_code_witness :
  _build_response sample_key 2 sample_request crowded_world =
    (Return (sample_response "KLMNPR"),
     snd (_build_response sample_key 2 sample_request crowded_world)) /\
  _build_response sample_key 1 sample_request sample_world =
    (Return (sample_response "ACEFHJ"),
     snd (_build_response sample_key 1 sample_request sample_world)) /\
  dict_get (sample_response "ACEFHJ") "token" =
  dict_get (sample_response "KLMNPR") "token".
Proof.
  assert (H : _build_response sample_key 2 sample_request crowded_world =
              (Return (sample_response "KLMNPR"),
               snd (_build_response sample_key 2 sample_request crowded_world))).
  { vm_compute. reflexivity. }
  assert (H' : _build_response sample_key 1 sample_request sample_world =
              (Return (sample_response "ACEFHJ"),
               snd (_build_response sample_key 1 sample_request sample_world))).
  { vm_compute. reflexivity. }
  split; [exact H |]. split; [exact H' |].
  destruct (retries_change_only_code sample_key 2 sample_request crowded_world _ _ H)
    as (_ & _ & Hsame).
  apply (Hsame 1%nat sample_world _ _ eq_refl H'). discriminate.
Defined.

(** ** C1: live sessions never share a key *)

Section Uniqueness.

Variable pairing_code_key : string -> string.

Lemma session_code_update (rd : pydict) (c : string) :
  session_code (dict_update rd "code" (PyStr c)) = Some c.
Proof. unfold session_code. now rewrite dict_get_update_eq. Qed.

Lemma attempt_inv (rd rd' : pydict) (w w' : world) (added : bool) :
  attempt pairing_code_key rd w = (Return (added, rd'), w') ->
  exists c,
    rd' = dict_update rd "code" (PyStr c) /\
    session_code rd' = Some c /\
    SeleneCache.set_if_not_exists_with_expiration
      (cache w) (pairing_code_key c) (json.dumps rd') ONE_DAY = (added, cache w').
Proof.
  rewrite attempt_run. intros H. inversion H; subst. clear H.
  exists (code_at (choices w) (drawn w)).
  split; [reflexivity |]. split; [apply session_code_update |].
  cbn [cache]. now destruct SeleneCache.set_if_not_exists_with_expiration.
Qed.

Lemma initial_response_cache (req : request) (w w' : world) (rd : pydict) :
  initial_response req w = (Return rd, w') -> cache w' = cache w.
Proof.
  destruct (args req !! "state") as [state |] eqn:Hs.
  - rewrite (initial_response_run req state w Hs). intros H. now inversion H.
  - unfold initial_response, request_arg, bind. rewrite Hs. discriminate.
Qed.

Lemma get_unchanged (c c' : SeleneCache.t) (key : string) :
  SeleneCache.store c' !! key = SeleneCache.store c !! key ->
  SeleneCache.clock c' = SeleneCache.clock c ->
  SeleneCache.get c' key = SeleneCache.get c key.
Proof. intros Hs Hc. unfold SeleneCache.get. now rewrite Hs, Hc. Qed.

Lemma get_is_stored (c : SeleneCache.t) (key : string) (e : SeleneCache.entry) :
  SeleneCache.get c key = Some e ->
  SeleneCache.store c !! key = Some e /\ SeleneCache.clock c < SeleneCache.expires_at e.
Proof.
  unfold SeleneCache.get. destruct (SeleneCache.store c !! key) as [e' |]; [| discriminate].
  destruct (Z.ltb_spec (SeleneCache.clock c) (SeleneCache.expires_at e')) as [Hlt | Hge];
    intros Heq; inversion Heq; subst; auto.
Qed.

Lemma stored_is_got (c : SeleneCache.t) (key : string) (e : SeleneCache.entry) :
  SeleneCache.store c !! key = Some e ->
  SeleneCache.clock c < SeleneCache.expires_at e ->
  SeleneCache.get c key = Some e.
Proof.
  intros Hs Hc. unfold SeleneCache.get. rewrite Hs.
  destruct (Z.ltb_spec (SeleneCache.clock c) (SeleneCache.expires_at e)); [reflexivity | lia].
Qed.

Lemma mark_claimed_unclaimed (key : string) (t : thread) (rd : pydict) (t0 : Z) :
  mark_claimed pairing_code_key key t = Finished rd t0 false ->
  t = Finished rd t0 false /\
  forall c, session_code rd = Some c -> pairing_code_key c <> key.
Proof.
  destruct t as [rd1 | rd1 t1 cl1]; cbn [mark_claimed]; [discriminate |].
  destruct (session_code rd1) as [c1 |] eqn:Hc.
  - destruct (String.eqb_spec (pairing_code_key c1) key) as [Heq | Hne];
      intros H; inversion H; subst.
    split; [reflexivity |]. intros c Hc'. congruence.
  - intros H; inversion H; subst. split; [reflexivity |]. intros c Hc'. congruence.
Qed.

(** A request that is live after a step in which its entry of the pool did
    not change, and in which time did not go back, was live before. *)
Lemma holds_before (s s' : system) (i : nat) (c : string) :
  pool s' !! i = pool s !! i ->
  SeleneCache.clock (shared s) <= SeleneCache.clock (shared s') ->
  holds s' i c -> holds s i c.
Proof.
  intros Hp Hc (rd & t0 & Hi & Hcode & Hlive). exists rd, t0.
  rewrite <- Hp. split; [exact Hi |]. split; [exact Hcode | lia].
Qed.

(** A live session whose entry was in the cache before a step is still
    there after it if the step left its key alone. *)
Lemma occupies_after (s s' : system) (i : nat) (c : string) :
  pool s' !! i = pool s !! i ->
  SeleneCache.store (shared s') !! pairing_code_key c =
    SeleneCache.store (shared s) !! pairing_code_key c ->
  holds s' i c -> occupies pairing_code_key s i c -> occupies pairing_code_key s' i c.
Proof.
  intros Hp Hst (rd & t0 & Hi & Hcode & Hlive) (rd' & t0' & Hi' & _ & Hget).
  rewrite Hp, Hi' in Hi. inversion Hi; subst rd' t0'. clear Hi.
  exists rd, t0. rewrite Hp. split; [exact Hi' |]. split; [exact Hcode |].
  apply get_is_stored in Hget. destruct Hget as [Hs _].
  apply stored_is_got; [now rewrite Hst | exact Hlive].
Qed.

Lemma occupies_taken (s : system) (i : nat) (c : string) :
  occupies pairing_code_key s i c ->
  is_Some (SeleneCache.get (shared s) (pairing_code_key c)).
Proof. intros (rd & t0 & _ & _ & Hget). eauto. Qed.

(** Steps in which no request returns: whatever is live afterwards was
    live before, with its entry of the pool and its key untouched. *)
Lemma quiet_step_preserves (s s' : system) :
  (forall j c, holds s' j c -> pool s' !! j = pool s !! j) ->
  SeleneCache.clock (shared s) <= SeleneCache.clock (shared s') ->
  (forall j c, holds s' j c ->
     SeleneCache.store (shared s') !! pairing_code_key c =
     SeleneCache.store (shared s) !! pairing_code_key c) ->
  sessions_in_cache pairing_code_key s /\ keys_not_shared pairing_code_key s ->
  sessions_in_cache pairing_code_key s' /\ keys_not_shared pairing_code_key s'.
Proof.
  intros Hpool Hclock Hstore [Hin Huniq]. split.
  - intros j c Hj. apply (occupies_after s s'); eauto.
    apply Hin. apply (holds_before s s'); eauto.
  - intros i j ci cj Hi Hj Hkey. apply (Huniq i j ci cj); [| | exact Hkey].
    + apply (holds_before s s'); eauto.
    + apply (holds_before s s'); eauto.
Qed.

Lemma holds_not_in_loop (s : system) (i : nat) (c : string) (rd : pydict) :
  pool s !! i = Some (InLoop rd) -> ~ holds s i c.
Proof. intros Hi (rd' & t0 & Hi' & _). congruence. Qed.

(** The step in which a request returns: its key was free, so no live
    session had it, and now it holds the session of this request. *)
Lemma returning_step_preserves (s : system) (i : nat) (w w' : world) (rd rd' : pydict) :
  pool s !! i = Some (InLoop rd) ->
  cache w = shared s ->
  attempt pairing_code_key rd w = (Return (true, rd'), w') ->
  sessions_in_cache pairing_code_key s /\ keys_not_shared pairing_code_key s ->
  let s' := System (cache w')
              (<[i := Finished rd' (SeleneCache.clock (shared s)) false]> (pool s)) in
  sessions_in_cache pairing_code_key s' /\ keys_not_shared pairing_code_key s'.
Proof.
  intros Hi Hw Hat [Hin Huniq] s'.
  apply attempt_inv in Hat. destruct Hat as (c0 & Hrd' & Hcode0 & Hset).
  apply set_if_not_exists_true_inv in Hset. destruct Hset as [Hfree Hcache].
  rewrite Hw in Hfree, Hcache.
  assert (Hother : forall j c, j <> i -> holds s' j c ->
            holds s j c /\ pairing_code_key c <> pairing_code_key c0).
  { intros j c Hne Hj.
    assert (Hjs : holds s j c).
    { apply (holds_before s s'); [| | exact Hj].
      - subst s'. cbn [pool]. now rewrite lookup_insert_ne.
      - subst s'. cbn [shared]. rewrite Hcache. cbn [SeleneCache.clock]. lia. }
    split; [exact Hjs |]. intros Hk.
    destruct (occupies_taken _ _ _ (Hin j c Hjs)) as [e He].
    rewrite Hk in He. congruence. }
  assert (Hself : forall c, holds s' i c -> c = c0).
  { intros c (rd1 & t1 & Hi1 & Hc1 & _). subst s'. cbn [pool] in Hi1.
    rewrite lookup_insert_eq in Hi1. inversion Hi1; subst. congruence. }
  split.
  - intros j c Hj. destruct (decide (j = i)) as [-> | Hne].
    + rewrite (Hself c Hj). exists rd', (SeleneCache.clock (shared s)).
      subst s'. cbn [pool shared]. rewrite lookup_insert_eq.
      split; [reflexivity |]. split; [exact Hcode0 |].
      rewrite Hcache. apply stored_is_got.
      * cbn [SeleneCache.store]. apply lookup_insert_eq.
      * cbn [SeleneCache.clock SeleneCache.expires_at]. unfold ONE_DAY. lia.
    + destruct (Hother j c Hne Hj) as [Hjs Hkey].
      apply (occupies_after s s'); [| | exact Hj | exact (Hin j c Hjs)].
      * subst s'. cbn [pool]. now rewrite lookup_insert_ne.
      * subst s'. cbn [shared]. rewrite Hcache. cbn [SeleneCache.store].
        rewrite lookup_insert_ne; [reflexivity | congruence].
  - intros j1 j2 c1 c2 H1 H2 Hkey.
    destruct (decide (j1 = i)) as [-> | Hne1], (decide (j2 = i)) as [-> | Hne2].
    + reflexivity.
    + exfalso. destruct (Hother j2 c2 Hne2 H2) as [_ Hk].
      rewrite (Hself c1 H1) in Hkey. congruence.
    + exfalso. destruct (Hother j1 c1 Hne1 H1) as [_ Hk].
      rewrite (Hself c2 H2) in Hkey. congruence.
    + destruct (Hother j1 c1 Hne1 H1) as [H1s _], (Hother j2 c2 Hne2 H2) as [H2s _].
      exact (Huniq j1 j2 c1 c2 H1s H2s Hkey).
Qed.

Lemma step_preserves (s s' : system) :
  step pairing_code_key s s' ->
  sessions_in_cache pairing_code_key s /\ keys_not_shared pairing_code_key s ->
  sessions_in_cache pairing_code_key s' /\ keys_not_shared pairing_code_key s'.
Proof.
  intros Hstep Hinv.
  destruct Hstep as [s i req w w' rd Hi Hw Hrun
                    | s i w w' rd rd' added Hi Hw Hat
                    | s d Hd
                    | s key
                    | s key value ttl Hforeign].
  - apply (quiet_step_preserves s); [| | | exact Hinv]; cbn [pool shared].
    + intros j c Hj. destruct (decide (j = i)) as [-> | Hne].
      * exfalso. eapply holds_not_in_loop; [| exact Hj]. cbn [pool].
        apply lookup_insert_eq.
      * now rewrite lookup_insert_ne.
    + rewrite (initial_response_cache _ _ _ _ Hrun), Hw. lia.
    + intros j c _. now rewrite (initial_response_cache _ _ _ _ Hrun), Hw.
  - destruct added.
    + exact (returning_step_preserves s i w w' rd rd' Hi Hw Hat Hinv).
    + assert (Hc : cache w' = shared s).
      { apply attempt_inv in Hat. destruct Hat as (c0 & _ & _ & Hset).
        apply set_if_not_exists_false_inv in Hset. destruct Hset as [_ ->]. exact Hw. }
      apply (quiet_step_preserves s); [| | | exact Hinv]; cbn [pool shared].
      * intros j c Hj. destruct (decide (j = i)) as [-> | Hne].
        -- exfalso. eapply holds_not_in_loop; [| exact Hj]. cbn [pool].
           apply lookup_insert_eq.
        -- now rewrite lookup_insert_ne.
      * rewrite Hc. lia.
      * intros j c _. now rewrite Hc.
  - apply (quiet_step_preserves s); [| | | exact Hinv]; cbn [pool shared]; auto.
    cbn [SeleneCache.tick SeleneCache.clock]. lia.
  - apply (quiet_step_preserves s); [| | | exact Hinv]; cbn [pool shared].
    + intros j c (rd & t0 & Hj & _). cbn [pool] in Hj.
      rewrite lookup_fmap in Hj. rewrite lookup_fmap.
      destruct (pool s !! j) as [t |]; [| discriminate].
      cbn in Hj |- *. inversion Hj as [Hm].
      apply mark_claimed_unclaimed in Hm. destruct Hm as [-> _].
      f_equal. cbn [mark_claimed]. inversion Hj as [Hm]. now rewrite Hm.
    + cbn [SeleneCache.delete SeleneCache.clock]. lia.
    + intros j c (rd & t0 & Hj & Hcode & _). cbn [pool] in Hj.
      rewrite lookup_fmap in Hj.
      destruct (pool s !! j) as [t |]; [| discriminate].
      cbn in Hj. inversion Hj as [Hm].
      apply mark_claimed_unclaimed in Hm. destruct Hm as [_ Hne].
      cbn [SeleneCache.delete SeleneCache.store].
      apply lookup_delete_ne. intros Heq. exact (Hne c Hcode (eq_sym Heq)).
  - apply (quiet_step_preserves s); [| | | exact Hinv]; cbn [pool shared]; auto.
    + cbn [SeleneCache.set SeleneCache.clock]. lia.
    + intros j c _. cbn [SeleneCache.set SeleneCache.store].
      apply lookup_insert_ne. intros Heq. exact (Hforeign c (eq_sym Heq)).
Qed.

Lemma reachable_invariant (s : system) :
  reachable pairing_code_key s ->
  sessions_in_cache pairing_code_key s /\ keys_not_shared pairing_code_key s.
Proof.
  induction 1 as [c | s s' _ IH Hstep].
  - split.
    + intros i c0 (rd & t0 & Hi & _). cbn [pool] in Hi.
      rewrite lookup_empty in Hi. discriminate.
    + intros i j ci cj (rd & t0 & Hi & _). cbn [pool] in Hi.
      rewrite lookup_empty in Hi. discriminate.
  - exact (step_preserves s s' Hstep IH).
Qed.

End Uniqueness.

(** The sample run is a run of the system. *)
Lemma sample_system_1_reachable : reachable sample_key sample_system_1.
Proof.
  apply (reachable_step sample_key (System (cache sample_world) ∅)).
  - apply reachable_init.
  - exact (step_request sample_key (System (cache sample_world) ∅) 0 sample_request
             sample_world (world_before_loop sample_world)
             (response_before_loop "abc-state" sample_world)
             (lookup_empty _) eq_refl eq_refl).
Qed.

Lemma sample_system_2_reachable : reachable sample_key sample_system_2.
Proof.
  apply (reachable_step sample_key sample_system_1 _ sample_system_1_reachable).
  refine (step_attempt sample_key sample_system_1 0 (world_before_loop sample_world)
            sample_world_2 (response_before_loop "abc-state" sample_world)
            (sample_response "ACEFHJ") true _ eq_refl _).
  - apply lookup_insert_eq.
  - vm_compute. reflexivity.
Qed.

Lemma sample_system_3_reachable : reachable sample_key sample_system_3.
Proof.
  apply (reachable_step sample_key sample_system_2 _ sample_system_2_reachable).
  refine (step_request sample_key sample_system_2 1 sample_request
            sample_world_3 (world_before_loop sample_world_3)
            (response_before_loop "abc-state" sample_world_3) _ eq_refl eq_refl).
  vm_compute. reflexivity.
Qed.

Lemma sample_system_4_reachable : reachable sample_key sample_system_4.
Proof.
  apply (reachable_step sample_key sample_system_3 _ sample_system_3_reachable).
  refine (step_attempt sample_key sample_system_3 1 (world_before_loop sample_world_3)
            (after_draws 6 (world_before_loop sample_world_3))
            (response_before_loop "abc-state" sample_world_3)
            (sample_response "ACEFHJ") false _ eq_refl _).
  - apply lookup_insert_eq.
  - vm_compute. reflexivity.
Qed.

Lemma sample_system_5_reachable : reachable sample_key sample_system_5.
Proof.
  apply (reachable_step sample_key sample_system_4 _ sample_system_4_reachable).
  refine (step_attempt sample_key sample_system_4 1
            (after_draws 6 (world_before_loop sample_world_3))
            sample_world_5 (sample_response "ACEFHJ")
            (sample_response "KLMNPR") true _ eq_refl _).
  - apply lookup_insert_eq.
  - vm_compute. reflexivity.
Qed.

(** C1. In every state that any number of concurrent calls can reach, with
    time passing, sessions being claimed and other keys being written in
    between: (1) two live sessions (returned, unexpired, unclaimed) of
    different requests never have the same cache key, in particular never
    the same code; (2) every live session is the entry the cache holds
    under its key; (3) a request leaves the loop only in a step whose
    conditional write found the key free and stored the session there. *)
Theorem live_sessions_never_share_a_key
    (pairing_code_key : string -> string) (s : system) :
  reachable pairing_code_key s ->
  (forall i j ci cj,
     holds s i ci -> holds s j cj ->
     pairing_code_key ci = pairing_code_key cj -> i = j) /\
  (forall i j c, holds s i c -> holds s j c -> i = j) /\
  (forall i c, holds s i c -> occupies pairing_code_key s i c) /\
  (forall s' i rd rd' stored_at claimed,
     step pairing_code_key s s' ->
     pool s !! i = Some (InLoop rd) ->
     pool s' !! i = Some (Finished rd' stored_at claimed) ->
     exists c,
       session_code rd' = Some c /\
       SeleneCache.get (shared s) (pairing_code_key c) = None /\
       SeleneCache.get (shared s') (pairing_code_key c) =
         Some (SeleneCache.Entry (json.dumps rd')
                 (SeleneCache.clock (shared s) + ONE_DAY)) /\
       stored_at = SeleneCache.clock (shared s) /\ claimed = false).
Proof.
  intros Hreach. destruct (reachable_invariant _ _ Hreach) as [Hin Huniq].
  split; [exact Huniq |]. split; [| split; [exact Hin |]].
  { intros i j c Hi Hj. exact (Huniq i j c c Hi Hj eq_refl). }
  intros s' i rd rd' t0 cl Hstep Hi Hi'.
  destruct Hstep as [s i0 req w w' rd0 Hi0 Hw Hrun
                    | s i0 w w' rd0 rd1 added Hi0 Hw Hat
                    | s d Hd
                    | s key
                    | s key value ttl Hforeign]; cbn [pool shared] in *.
  - destruct (decide (i0 = i)) as [-> | Hne]; [congruence |].
    rewrite lookup_insert_ne in Hi' by exact Hne. congruence.
  - destruct (decide (i0 = i)) as [-> | Hne].
    + rewrite lookup_insert_eq in Hi'. destruct added; [| discriminate].
      inversion Hi'; subst rd' t0 cl. clear Hi'.
      apply attempt_inv in Hat. destruct Hat as (c0 & _ & Hcode & Hset).
      apply set_if_not_exists_true_inv in Hset. destruct Hset as [Hfree Hcache].
      rewrite Hw in Hfree, Hcache. exists c0.
      split; [exact Hcode |]. split; [exact Hfree |]. split; [| auto].
      rewrite Hcache. apply stored_is_got.
      * cbn [SeleneCache.store]. apply lookup_insert_eq.
      * cbn [SeleneCache.clock SeleneCache.expires_at]. unfold ONE_DAY. lia.
    + rewrite lookup_insert_ne in Hi' by exact Hne. congruence.
  - congruence.
  - rewrite lookup_fmap, Hi in Hi'. discriminate.
  - congruence.
Qed.

Lemma live_sessions_never_share_a_key_witness :
  reachable sample_key sample_system_5 /\
  holds sample_system_5 0 "ACEFHJ" /\
  holds sample_system_5 1 "KLMNPR" /\
  occupies sample_key sample_system_5 0 "ACEFHJ" /\
  occupies sample_key sample_system_5 1 "KLMNPR" /\
  (forall j, holds sample_system_5 j "KLMNPR" -> 1%nat = j).
Proof.
  assert (H0 : holds sample_system_5 0 "ACEFHJ").
  { exists (sample_response "ACEFHJ"), 0. vm_compute. repeat split. }
  assert (H1 : holds sample_system_5 1 "KLMNPR").
  { exists (sample_response "KLMNPR"), 0. vm_compute. repeat split. }
  destruct (live_sessions_never_share_a_key sample_key sample_system_5
              sample_system_5_reachable) as (_ & Huniq & Hin & _).
  split; [exact sample_system_5_reachable |].
  split; [exact H0 |]. split; [exact H1 |].
  split; [exact (Hin _ _ H0) |]. split; [exact (Hin _ _ H1) |].
  intros j Hj. exact (Huniq _ _ _ H1 Hj).
Defined.

(* ===================================================================== *)
(** ** Conditional retrieval *)
(* ===================================================================== *)

Section Conditional.

Import ConditionalStateCache.

Lemma perform_issued_before (s : t) (o : operation) :
  issued_before s -> issued_before (perform s o).
Proof.
  intros Hs. destruct o as [k f | k | k p]; cbn [perform].
  - unfold Read. destruct (entries s !! k) as [e |] eqn:He.
    + destruct (decide (f = Some (fingerprint e))); exact Hs.
    + cbn [snd]. intros k' e' H. cbn [entries version] in *.
      destruct (decide (k = k')) as [-> | Hne].
      * rewrite lookup_insert_eq in H. inversion H; subst. cbn [fingerprint]. lia.
      * rewrite lookup_insert_ne in H by exact Hne. specialize (Hs k' e' H). lia.
  - intros k' e' H. cbn [Invalidate entries version] in *.
    destruct (decide (k = k')) as [-> | Hne].
    + rewrite lookup_delete_eq in H. discriminate.
    + rewrite lookup_delete_ne in H by exact Hne. exact (Hs k' e' H).
  - exact Hs.
Qed.

Lemma fold_issued_before (ops : list operation) (s : t) :
  issued_before s -> issued_before (fold_left perform ops s).
Proof.
  revert s. induction ops as [| o ops IH]; intros s Hs; [exact Hs |].
  cbn [fold_left]. apply IH, perform_issued_before, Hs.
Qed.

(** Every fingerprint in the cache of a reachable state is below the
    counter. *)
Lemma run_issued_before (source : string -> string) (ops : list operation) :
  issued_before (run source ops).
Proof.
  apply fold_issued_before. intros k e H. cbn [initial entries] in H.
  rewrite lookup_empty in H. discriminate.
Qed.

Lemma Read_miss (k : string) (f : option nat) (s : t) :
  entries s !! k = None ->
  Read k f s =
  (Full (source s k) (version s),
   State (<[k := Cached (source s k) (version s)]> (entries s)) (source s) (S (version s))).
Proof. intros H. unfold Read. now rewrite H. Qed.

Lemma Read_hit_same (k : string) (e : CachedResourceState) (s : t) :
  entries s !! k = Some e -> Read k (Some (fingerprint e)) s = (NotModified, s).
Proof.
  intros H. unfold Read. rewrite H.
  destruct (decide (Some (fingerprint e) = Some (fingerprint e))); [reflexivity | congruence].
Qed.

Lemma Read_hit_other (k : string) (f : option nat) (e : CachedResourceState) (s : t) :
  entries s !! k = Some e -> f <> Some (fingerprint e) ->
  Read k f s = (Full (payload e) (fingerprint e), s).
Proof.
  intros H Hne. unfold Read. rewrite H.
  destruct (decide (f = Some (fingerprint e))); [congruence | reflexivity].
Qed.

(** A [Read] of a cached resource changes nothing and conveys the stored
    fingerprint. *)
Lemma Read_cached (k : string) (c : option nat) (e : CachedResourceState) (s : t) :
  entries s !! k = Some e ->
  snd (Read k c s) = s /\
  known_fingerprint c (fst (Read k c s)) = Some (fingerprint e) /\
  (forall p f, fst (Read k c s) = Full p f -> f = fingerprint e /\ p = payload e).
Proof.
  intros He. unfold Read. rewrite He.
  destruct (decide (c = Some (fingerprint e))) as [-> | Hne];
    cbn [fst snd known_fingerprint].
  - split; [reflexivity |]. split; [reflexivity | discriminate].
  - split; [reflexivity |]. split; [reflexivity |].
    intros p f H. inversion H. auto.
Qed.

(** After any [Read] the resource is cached, under the fingerprint the
    caller now holds. *)
Lemma Read_caches (k : string) (c : option nat) (s : t) :
  exists e,
    entries (snd (Read k c s)) !! k = Some e /\
    known_fingerprint c (fst (Read k c s)) = Some (fingerprint e) /\
    (forall p f, fst (Read k c s) = Full p f -> f = fingerprint e /\ p = payload e).
Proof.
  destruct (entries s !! k) as [e |] eqn:He.
  - exists e. destruct (Read_cached k c e s He) as (Hs & Hk & Hf).
    rewrite Hs. auto.
  - rewrite (Read_miss k c s He). eexists. cbn [fst snd entries known_fingerprint].
    split; [apply lookup_insert_eq |]. split; [reflexivity |].
    intros p f H. inversion H. auto.
Qed.

End Conditional.

(** C6. In any state the component can reach in which the resource is
    cached: after [Invalidate] and then a mutation of the resource to a new
    payload, a [Read] presenting the fingerprint that was stored before the
    invalidation returns the new payload in full, not [NotModified], and
    with a fingerprint different from the one presented; a further [Read]
    presenting the new fingerprint returns [NotModified]. *)
Theorem change_detected_after_invalidate
    (source : string -> string) (ops : list ConditionalStateCache.operation)
    (resourceKey newPayload : string) (e : ConditionalStateCache.CachedResourceState) :
  let s := ConditionalStateCache.run source ops in
  ConditionalStateCache.entries s !! resourceKey = Some e ->
  let old := ConditionalStateCache.fingerprint e in
  let s' := ConditionalStateCache.Mutate resourceKey newPayload
              (ConditionalStateCache.Invalidate resourceKey s) in
  exists f s'',
    ConditionalStateCache.Read resourceKey (Some old) s' =
      (ConditionalStateCache.Full newPayload f, s'') /\
    f <> old /\
    ConditionalStateCache.Read resourceKey (Some old) s' <>
      (ConditionalStateCache.NotModified, s') /\
    ConditionalStateCache.stored_fingerprint s'' resourceKey = Some f /\
    ConditionalStateCache.Read resourceKey (Some f) s'' =
      (ConditionalStateCache.NotModified, s'').
Proof.
  intros s He old s'.
  assert (Hmiss : ConditionalStateCache.entries s' !! resourceKey = None).
  { subst s'. cbn [ConditionalStateCache.Mutate ConditionalStateCache.Invalidate
                   ConditionalStateCache.entries].
    apply lookup_delete_eq. }
  assert (Hold : (old < ConditionalStateCache.version s)%nat).
  { exact (run_issued_before source ops resourceKey e He). }
  rewrite (Read_miss resourceKey (Some old) s' Hmiss).
  assert (Hp : ConditionalStateCache.source s' resourceKey = newPayload).
  { subst s'. cbn [ConditionalStateCache.Mutate ConditionalStateCache.source].
    now rewrite String.eqb_refl. }
  rewrite Hp. eexists _, _. split; [reflexivity |].
  split; [subst s'; cbn [ConditionalStateCache.Mutate ConditionalStateCache.Invalidate
                          ConditionalStateCache.version]; lia |].
  split; [discriminate |]. split.
  - unfold ConditionalStateCache.stored_fingerprint.
    cbn [ConditionalStateCache.entries]. now rewrite lookup_insert_eq.
  - apply (Read_hit_same resourceKey
             (ConditionalStateCache.Cached newPayload (ConditionalStateCache.version s'))).
    cbn [ConditionalStateCache.entries]. apply lookup_insert_eq.
Qed.

Lemma change_detected_after_invalidate_witness :
  ConditionalStateCache.entries
    (ConditionalStateCache.run ConditionalStateCache.sample_source
       ConditionalStateCache.sample_ops) !! ConditionalStateCache.sample_resource =
    Some (ConditionalStateCache.Cached "{}" 0) /\
  exists f s'',
    ConditionalStateCache.Read ConditionalStateCache.sample_resource (Some 0%nat)
      (ConditionalStateCache.Mutate ConditionalStateCache.sample_resource "{new}"
         (ConditionalStateCache.Invalidate ConditionalStateCache.sample_resource
            (ConditionalStateCache.run ConditionalStateCache.sample_source
               ConditionalStateCache.sample_ops))) =
      (ConditionalStateCache.Full "{new}" f, s'') /\
    f <> 0%nat.
Proof.
  assert (H : ConditionalStateCache.entries
    (ConditionalStateCache.run ConditionalStateCache.sample_source
       ConditionalStateCache.sample_ops) !! ConditionalStateCache.sample_resource =
    Some (ConditionalStateCache.Cached "{}" 0)) by (vm_compute; reflexivity).
  split; [exact H |].
  destruct (change_detected_after_invalidate ConditionalStateCache.sample_source
              ConditionalStateCache.sample_ops ConditionalStateCache.sample_resource
              "{new}" _ H) as (f & s'' & Hread & Hne & _).
  exists f, s''. split; [exact Hread | exact Hne].
Defined.

(** C7. For a resource with a cached entry, a [Read] whose caller
    fingerprint is present and equal to the stored fingerprint returns
    [NotModified], which carries no payload, and leaves the state as it
    was. *)
Theorem matching_fingerprint_not_modified
    (s : ConditionalStateCache.t) (resourceKey : string)
    (e : ConditionalStateCache.CachedResourceState) (callerFingerprint : option nat) :
  ConditionalStateCache.entries s !! resourceKey = Some e ->
  callerFingerprint = Some (ConditionalStateCache.fingerprint e) ->
  ConditionalStateCache.Read resourceKey callerFingerprint s =
    (ConditionalStateCache.NotModified, s) /\
  forall p f s',
    ConditionalStateCache.Read resourceKey callerFingerprint s <>
      (ConditionalStateCache.Full p f, s').
Proof.
  intros He ->. rewrite (Read_hit_same resourceKey e s He).
  split; [reflexivity | discriminate].
Qed.

Lemma matching_fingerprint_not_modified_witness :
  let s := ConditionalStateCache.run ConditionalStateCache.sample_source
             ConditionalStateCache.sample_ops in
  ConditionalStateCache.entries s !! ConditionalStateCache.sample_resource =
    Some (ConditionalStateCache.Cached "{}" 0) /\
  ConditionalStateCache.Read ConditionalStateCache.sample_resource (Some 0%nat) s =
    (ConditionalStateCache.NotModified, s).
Proof.
  intros s.
  assert (H : ConditionalStateCache.entries s !! ConditionalStateCache.sample_resource =
              Some (ConditionalStateCache.Cached "{}" 0)) by (vm_compute; reflexivity).
  split; [exact H |].
  exact (proj1 (matching_fingerprint_not_modified s ConditionalStateCache.sample_resource
                  _ (Some 0%nat) H eq_refl)).
Defined.

(** C8. Two consecutive [Read]s of a resource, with nothing in between,
    see the same fingerprint: the fingerprint stored after the first is the
    one stored after the second, and it is the fingerprint each caller holds
    afterwards (the one returned with the payload, or the caller's own when
    the answer is [NotModified]); when both answers carry a fingerprint, the
    two are equal. *)
Theorem consecutive_reads_same_fingerprint
    (s : ConditionalStateCache.t) (resourceKey : string)
    (caller1 caller2 : option nat) :
  let r1 := ConditionalStateCache.Read resourceKey caller1 s in
  let r2 := ConditionalStateCache.Read resourceKey caller2 (snd r1) in
  ConditionalStateCache.known_fingerprint caller1 (fst r1) =
    ConditionalStateCache.known_fingerprint caller2 (fst r2) /\
  ConditionalStateCache.stored_fingerprint (snd r1) resourceKey =
    ConditionalStateCache.known_fingerprint caller1 (fst r1) /\
  ConditionalStateCache.stored_fingerprint (snd r2) resourceKey =
    ConditionalStateCache.stored_fingerprint (snd r1) resourceKey /\
  (forall p1 f1 p2 f2,
     fst r1 = ConditionalStateCache.Full p1 f1 ->
     fst r2 = ConditionalStateCache.Full p2 f2 -> f1 = f2 /\ p1 = p2).
Proof.
  intros r1 r2. subst r2.
  destruct (Read_caches resourceKey caller1 s) as (e & He & Hk1 & Hfull1).
  fold r1 in He, Hk1, Hfull1.
  destruct (Read_cached resourceKey caller2 e (snd r1) He) as (Hs2 & Hk2 & Hfull2).
  split; [congruence |]. split.
  - unfold ConditionalStateCache.stored_fingerprint. rewrite He, Hk1. reflexivity.
  - split; [now rewrite Hs2 |].
    intros p1 f1 p2 f2 E1 E2.
    destruct (Hfull1 p1 f1 E1) as [-> ->]. destruct (Hfull2 p2 f2 E2) as [-> ->]. auto.
Qed.

(* ===================================================================== *)
(** * Further properties of the endpoint *)
(* ===================================================================== *)

Section Endpoint.

Variable pairing_code_key : string -> string.

(** What [get] adds to [_build_response]: the status. *)
Lemma get_Return_inv (fuel : nat) (req : request) (w w' : world) (rd : pydict) (status : Z) :
  get pairing_code_key fuel req w = (Return (rd, status), w') ->
  status = HTTPStatus_OK /\
  _build_response pairing_code_key fuel req w = (Return rd, w').
Proof.
  unfold get. intros H. apply bind_Return in H.
  destruct H as (rd0 & w1 & Hrun & Hret). inversion Hret; subst. auto.
Qed.

Lemma get_not_Return (fuel : nat) (req : request) (w : world) :
  (forall rd w', _build_response pairing_code_key fuel req w <> (Return rd, w')) ->
  get pairing_code_key fuel req w =
  (match fst (_build_response pairing_code_key fuel req w) with
   | Return _ => Running
   | Raise e => Raise e
   | Running => Running
   end, snd (_build_response pairing_code_key fuel req w)).
Proof.
  intros Hno. unfold get, bind.
  destruct (_build_response pairing_code_key fuel req w) as [[rd | e |] w1];
    [exfalso; exact (Hno rd w1 eq_refl) | reflexivity | reflexivity].
Qed.

(** The loop itself never raises: it returns or is still turning. *)
Lemma pairing_loop_outcome (fuel : nat) (rd : pydict) (w : world) :
  (exists n, (n < fuel)%nat /\
     (forall k, (k < n)%nat -> occupied pairing_code_key w k) /\
     SeleneCache.get (cache w) (pairing_code_key (code_of_turn w n)) = None /\
     pairing_loop pairing_code_key fuel rd w =
       (Return (dict_update rd "code" (PyStr (code_of_turn w n))),
        world_after_success pairing_code_key w n
          (dict_update rd "code" (PyStr (code_of_turn w n))))) \/
  ((forall k, (k < fuel)%nat -> occupied pairing_code_key w k) /\
   pairing_loop pairing_code_key fuel rd w = (Running, after_draws (6 * fuel) w)).
Proof.
  destruct (first_free_turn pairing_code_key w fuel) as [(n & Hn & Hocc & Hfree) | Hall].
  - left. exists n. split; [exact Hn |]. split; [exact Hocc |]. split; [exact Hfree |].
    now apply pairing_loop_returns.
  - right. split; [exact Hall |]. now apply pairing_loop_turning.
Qed.

(** The three ways a call can be observed. *)
Lemma build_response_outcome (fuel : nat) (req : request) (w : world) :
  (args req !! "state" = None /\
   _build_response pairing_code_key fuel req w = (Raise (KeyError "state"), w)) \/
  (exists state n,
     args req !! "state" = Some state /\ (n < fuel)%nat /\
     (forall k, (k < n)%nat -> occupied pairing_code_key (world_before_loop w) k) /\
     SeleneCache.get (cache w)
       (pairing_code_key (code_of_turn (world_before_loop w) n)) = None /\
     let rd := dict_update (response_before_loop state w) "code"
                 (PyStr (code_of_turn (world_before_loop w) n)) in
     _build_response pairing_code_key fuel req w =
       (Return rd, world_after_success pairing_code_key (world_before_loop w) n rd)) \/
  (exists state,
     args req !! "state" = Some state /\
     (forall k, (k < fuel)%nat -> occupied pairing_code_key (world_before_loop w) k) /\
     _build_response pairing_code_key fuel req w =
       (Running, after_draws (6 * fuel) (world_before_loop w))).
Proof.
  destruct (args req !! "state") as [state |] eqn:Hs.
  - right. rewrite (build_response_enters_loop pairing_code_key fuel req state w Hs).
    destruct (pairing_loop_outcome fuel (response_before_loop state w) (world_before_loop w))
      as [(n & Hn & Hocc & Hfree & Hrun) | [Hall Hrun]].
    + left. exists state, n. auto 10.
    + right. exists state. auto.
  - left. split; [reflexivity |]. now apply build_response_missing_state.
Qed.

(** [get] is [_build_response] with the status put beside the response. *)
Lemma get_outcome (fuel : nat) (req : request) (w w' : world) (r : outcome (pydict * Z)) :
  get pairing_code_key fuel req w = (r, w') ->
  exists r0,
    _build_response pairing_code_key fuel req w = (r0, w') /\
    r = match r0 with
        | Return rd => Return (rd, HTTPStatus_OK)
        | Raise e => Raise e
        | Running => Running
        end.
Proof.
  unfold get, bind.
  destruct (_build_response pairing_code_key fuel req w) as [[rd | e |] w1];
    intros H; inversion H; subst; eexists; split; reflexivity.
Qed.

(** What a call does to the cache. *)
Lemma build_response_effect (fuel : nat) (req : request) (w w' : world) (r : outcome pydict) :
  _build_response pairing_code_key fuel req w = (r, w') ->
  SeleneCache.clock (cache w') = SeleneCache.clock (cache w) /\
  match r with
  | Return rd =>
      exists code,
        session_code rd = Some code /\
        SeleneCache.get (cache w) (pairing_code_key code) = None /\
        forall key, key <> pairing_code_key code ->
          SeleneCache.store (cache w') !! key = SeleneCache.store (cache w) !! key
  | _ => cache w' = cache w
  end.
Proof.
  intros H.
  destruct (build_response_outcome fuel req w)
    as [[Hs Hrun] | [(state & n & _ & _ & _ & Hfree & Hrun) | (state & _ & _ & Hrun)]];
    cbv zeta in Hrun; rewrite Hrun in H; inversion H; subst; clear H.
  - split; reflexivity.
  - split; [reflexivity |].
    exists (code_of_turn (world_before_loop w) n).
    split; [reflexivity |].
    split; [exact Hfree |].
    intros key Hkey. unfold world_after_success.
    cbn [cache SeleneCache.store world_before_loop].
    apply lookup_insert_ne. congruence.
  - split; reflexivity.
Qed.

(** A live entry survives a call. *)
Lemma build_response_keeps (fuel : nat) (req : request) (w w' : world) (r : outcome pydict)
    (key : string) (e : SeleneCache.entry) :
  _build_response pairing_code_key fuel req w = (r, w') ->
  SeleneCache.get (cache w) key = Some e ->
  SeleneCache.get (cache w') key = Some e.
Proof.
  intros H He. destruct (build_response_effect fuel req w w' r H) as [Hclock Hr].
  destruct r as [rd | ex |]; try (now rewrite Hr).
  destruct Hr as (code & _ & Hfree & Hframe).
  rewrite <- He. unfold SeleneCache.get. rewrite Hclock, Hframe; [reflexivity |].
  intros ->. congruence.
Qed.

End Endpoint.




(** X3. A call never takes an entry away: a key that holds a live entry
    before a call of [get] holds the same live entry after it, whatever the
    call comes to. *)
Theorem get_keeps_live_entries
    (pairing_code_key : string -> string) (fuel : nat) (req : request)
    (w w' : world) (r : outcome (pydict * Z)) (key : string) (e : SeleneCache.entry) :
  get pairing_code_key fuel req w = (r, w') ->
  SeleneCache.get (cache w) key = Some e ->
  SeleneCache.get (cache w') key = Some e.
Proof.
  intros H He. destruct (get_outcome pairing_code_key fuel req w w' r H) as (r0 & Hrun & _).
  exact (build_response_keeps pairing_code_key fuel req w w' r0 key e Hrun He).
Qed.

Lemma get_keeps_live_entries_witness :
  get sample_key 2 sample_request crowded_world =
    (Return (sample_response "KLMNPR", 200),
     snd (get sample_key 2 sample_request crowded_world)) /\
  SeleneCache.get (cache crowded_world) "pairing.code:ACEFHJ" =
    Some (SeleneCache.Entry "{}" 500) /\
  SeleneCache.get (cache (snd (get sample_key 2 sample_request crowded_world)))
    "pairing.code:ACEFHJ" = Some (SeleneCache.Entry "{}" 500).
Proof.
  assert (H : get sample_key 2 sample_request crowded_world =
    (Return (sample_response "KLMNPR", 200),
     snd (get sample_key 2 sample_request crowded_world))) by (vm_compute; reflexivity).
  assert (He : SeleneCache.get (cache crowded_world) "pairing.code:ACEFHJ" =
    Some (SeleneCache.Entry "{}" 500)) by (vm_compute; reflexivity).
  split; [exact H |]. split; [exact He |].
  exact (get_keeps_live_entries sample_key 2 sample_request crowded_world _ _ _ _ H He).
Defined.

Section EndpointCalls.

Variable pairing_code_key : string -> string.

(** What a returned call has done to the cache. *)
Lemma get_stores (fuel : nat) (req : request) (w w' : world) (rd : pydict) (status : Z) :
  get pairing_code_key fuel req w = (Return (rd, status), w') ->
  exists code,
    session_code rd = Some code /\
    SeleneCache.get (cache w) (pairing_code_key code) = None /\
    SeleneCache.clock (cache w') = SeleneCache.clock (cache w) /\
    SeleneCache.store (cache w') !! pairing_code_key code =
      Some (SeleneCache.Entry (json.dumps rd) (SeleneCache.clock (cache w) + ONE_DAY)).
Proof.
  intros H. apply get_Return_inv in H. destruct H as [_ H].
  apply build_response_Return_inv in H.
  destruct H as (state & n & _ & _ & _ & Hfree & Hrd & ->).
  exists (code_of_turn (world_before_loop w) n).
  split; [subst rd; exact (session_code_update _ _) |].
  split; [exact Hfree |]. split; [reflexivity |].
  unfold world_after_success. cbn [cache SeleneCache.store world_before_loop].
  apply lookup_insert_eq.
Qed.

(** A call that finds the key of its first code free returns at once. *)
Lemma get_first_turn (fuel : nat) (req : request) (state : string) (w : world) :
  args req !! "state" = Some state ->
  SeleneCache.get (cache w) (pairing_code_key (code_at (choices w) (drawn w))) = None ->
  let rd := dict_update (response_before_loop state w) "code"
              (PyStr (code_at (choices w) (drawn w))) in
  get pairing_code_key (S fuel) req w =
  (Return (rd, HTTPStatus_OK),
   world_after_success pairing_code_key (world_before_loop w) 0 rd).
Proof.
  intros Hs Hfree rd. unfold get.
  rewrite (bind_eq _ _ _ _ _
             (eq_trans (build_response_enters_loop pairing_code_key (S fuel) req state w Hs)
                       (loop_turn_free pairing_code_key fuel _ (world_before_loop w) Hfree))).
  reflexivity.
Qed.

End EndpointCalls.

(** X4. Two calls of [get], the second made less than a day after the
    first on the cache the first left, return different codes, and after
    the second both sessions are in the cache, each under its own key. *)
Theorem consecutive_calls_issue_different_codes
    (pairing_code_key : string -> string) (fuel1 fuel2 : nat) (req1 req2 : request)
    (w1 w1' w2 w2' : world) (rd1 rd2 : pydict) (status1 status2 : Z) (seconds : Z) :
  get pairing_code_key fuel1 req1 w1 = (Return (rd1, status1), w1') ->
  0 <= seconds < ONE_DAY ->
  cache w2 = SeleneCache.tick (cache w1') seconds ->
  get pairing_code_key fuel2 req2 w2 = (Return (rd2, status2), w2') ->
  exists code1 code2,
    session_code rd1 = Some code1 /\
    session_code rd2 = Some code2 /\
    code1 <> code2 /\
    pairing_code_key code1 <> pairing_code_key code2 /\
    SeleneCache.get (cache w2') (pairing_code_key code1) =
      Some (SeleneCache.Entry (json.dumps rd1) (SeleneCache.clock (cache w1) + ONE_DAY)) /\
    SeleneCache.get (cache w2') (pairing_code_key code2) =
      Some (SeleneCache.Entry (json.dumps rd2) (SeleneCache.clock (cache w2) + ONE_DAY)).
Proof.
  intros H1 Hsec Hw2 H2.
  destruct (get_stores _ _ _ _ _ _ _ H1) as (c1 & Hc1 & _ & Hclock1 & Hst1).
  destruct (get_stores _ _ _ _ _ _ _ H2) as (c2 & Hc2 & Hfree2 & Hclock2 & Hst2).
  assert (Hlive1 : SeleneCache.get (cache w2) (pairing_code_key c1) =
            Some (SeleneCache.Entry (json.dumps rd1)
                    (SeleneCache.clock (cache w1) + ONE_DAY))).
  { rewrite Hw2, (get_after_tick _ _ _ seconds Hst1). cbn [SeleneCache.expires_at].
    rewrite Hclock1.
    destruct (Z.ltb_spec (SeleneCache.clock (cache w1) + seconds)
                (SeleneCache.clock (cache w1) + ONE_DAY)); [reflexivity | lia]. }
  assert (Hkeys : pairing_code_key c1 <> pairing_code_key c2).
  { intros Heq. rewrite Heq in Hlive1. congruence. }
  exists c1, c2. split; [exact Hc1 |]. split; [exact Hc2 |].
  split; [congruence |]. split; [exact Hkeys |]. split.
  - destruct (get_outcome pairing_code_key fuel2 req2 w2 w2' _ H2) as (r0 & Hrun & _).
    exact (build_response_keeps pairing_code_key fuel2 req2 w2 w2' r0 _ _ Hrun Hlive1).
  - apply stored_is_got; [exact Hst2 |].
    cbn [SeleneCache.expires_at]. rewrite Hclock2. unfold ONE_DAY. lia.
Qed.

Lemma consecutive_calls_issue_different_codes_witness :
  get sample_key 1 sample_request sample_world =
    (Return (sample_response "ACEFHJ", 200), sample_world_2) /\
  0 <= 10 < ONE_DAY /\
  cache (later_world 10) = SeleneCache.tick (cache sample_world_2) 10 /\
  get sample_key 2 sample_request (later_world 10) =
    (Return (sample_response "KLMNPR", 200),
     snd (get sample_key 2 sample_request (later_world 10))) /\
  exists code1 code2,
    session_code (sample_response "ACEFHJ") = Some code1 /\
    session_code (sample_response "KLMNPR") = Some code2 /\
    code1 <> code2.
Proof.
  assert (H1 : get sample_key 1 sample_request sample_world =
    (Return (sample_response "ACEFHJ", 200), sample_world_2)) by (vm_compute; reflexivity).
  assert (Hd : 0 <= 10 < ONE_DAY) by (unfold ONE_DAY; lia).
  assert (H2 : get sample_key 2 sample_request (later_world 10) =
    (Return (sample_response "KLMNPR", 200),
     snd (get sample_key 2 sample_request (later_world 10)))) by (vm_compute; reflexivity).
  split; [exact H1 |]. split; [exact Hd |]. split; [reflexivity |]. split; [exact H2 |].
  destruct (consecutive_calls_issue_different_codes sample_key 1 2 sample_request
              sample_request sample_world sample_world_2 (later_world 10) _ _ _ _ _ 10
              H1 Hd eq_refl H2) as (c1 & c2 & Hc1 & Hc2 & Hne & _).
  exists c1, c2. auto.
Defined.

(** X5. A code is issued again once its session is gone.  If a call of
    [get] has returned a code and the next call is made on the cache it
    left, either a day or more later or after the session's key was
    deleted, and the first six draws of that call spell the same code, then
    the call returns that code at its first turn and the cache holds the
    new session under its key. *)
Theorem code_reissued_after_expiry_or_claim
    (pairing_code_key : string -> string) (fuel1 fuel2 : nat) (req1 req2 : request)
    (w1 w1' w2 : world) (rd1 : pydict) (status1 : Z) (code state2 : string) :
  get pairing_code_key fuel1 req1 w1 = (Return (rd1, status1), w1') ->
  session_code rd1 = Some code ->
  (exists seconds, ONE_DAY <= seconds /\ cache w2 = SeleneCache.tick (cache w1') seconds) \/
  cache w2 = SeleneCache.delete (cache w1') (pairing_code_key code) ->
  args req2 !! "state" = Some state2 ->
  code_at (choices w2) (drawn w2) = code ->
  exists rd2 w2',
    get pairing_code_key (S fuel2) req2 w2 = (Return (rd2, 200), w2') /\
    rd2 = dict_update (response_before_loop state2 w2) "code" (PyStr code) /\
    SeleneCache.get (cache w2') (pairing_code_key code) =
      Some (SeleneCache.Entry (json.dumps rd2) (SeleneCache.clock (cache w2) + ONE_DAY)).
Proof.
  intros H1 Hcode Hgone Hs2 Hdraw.
  destruct (get_stores _ _ _ _ _ _ _ H1) as (c1 & Hc1 & _ & Hclock1 & Hst1).
  assert (c1 = code) as -> by congruence.
  assert (Hfree : SeleneCache.get (cache w2) (pairing_code_key code) = None).
  { destruct Hgone as [(seconds & Hsec & ->) | ->].
    - rewrite (get_after_tick _ _ _ seconds Hst1). cbn [SeleneCache.expires_at].
      rewrite Hclock1.
      destruct (Z.ltb_spec (SeleneCache.clock (cache w1) + seconds)
                  (SeleneCache.clock (cache w1) + ONE_DAY)); [lia | reflexivity].
    - unfold SeleneCache.get, SeleneCache.delete. cbn [SeleneCache.store].
      now rewrite lookup_delete_eq. }
  subst code.
  eexists _, _. split; [exact (get_first_turn pairing_code_key fuel2 req2 state2 w2 Hs2 Hfree) |].
  split; [reflexivity |].
  apply stored_is_got.
  - unfold world_after_success. cbn [cache SeleneCache.store world_before_loop].
    exact (lookup_insert_eq _ _ _).
  - cbn [SeleneCache.expires_at world_after_success cache SeleneCache.clock world_before_loop].
    unfold ONE_DAY. lia.
Qed.

Lemma code_reissued_after_expiry_or_claim_witness :
  get sample_key 1 sample_request sample_world =
    (Return (sample_response "ACEFHJ", 200), sample_world_2) /\
  session_code (sample_response "ACEFHJ") = Some "ACEFHJ"%string /\
  cache (later_world 86400) = SeleneCache.tick (cache sample_world_2) 86400 /\
  args sample_request !! "state" = Some "abc-state"%string /\
  code_at (choices (later_world 86400)) (drawn (later_world 86400)) = "ACEFHJ"%string /\
  exists rd2 w2',
    get sample_key 1 sample_request (later_world 86400) = (Return (rd2, 200), w2') /\
    rd2 = dict_update (response_before_loop "abc-state" (later_world 86400)) "code"
            (PyStr "ACEFHJ").
Proof.
  assert (H1 : get sample_key 1 sample_request sample_world =
    (Return (sample_response "ACEFHJ", 200), sample_world_2)) by (vm_compute; reflexivity).
  assert (Hs : args sample_request !! "state" = Some "abc-state"%string)
    by (vm_compute; reflexivity).
  split; [exact H1 |]. split; [reflexivity |]. split; [reflexivity |].
  split; [exact Hs |]. split; [reflexivity |].
  destruct (code_reissued_after_expiry_or_claim sample_key 1 0 sample_request
              sample_request sample_world sample_world_2 (later_world 86400) _ _
              "ACEFHJ" "abc-state" H1 eq_refl
              (or_introl (ex_intro _ 86400 (conj (Z.le_refl _) eq_refl))) Hs eq_refl)
    as (rd2 & w2' & Hget & Hrd & _).
  exists rd2, w2'. auto.
Defined.

Lemma drawn_character_position (c : ascii) :
  In c (list_ascii_of_string allowed_characters) ->
  drawn_character (position_in (list_ascii_of_string allowed_characters) c) = c.
Proof.
  intros H. cbv [allowed_characters list_ascii_of_string] in H.
  repeat (destruct H as [<- | H]; [reflexivity |]). destruct H.
Qed.

(** X6. [_generate_pairing_code] can return every string of six allowed
    characters: for each such string there are draws of [random.choice]
    that spell it, and a call of [get] that makes these draws and finds the
    key free returns exactly this code. *)
Theorem every_allowed_code_can_be_issued
    (pairing_code_key : string -> string) (code : string)
    (c : SeleneCache.t) (u : nat -> Z) (d fuel : nat) (req : request) (state : string) :
  String.length code = 6%nat ->
  Forall (fun a => In a (list_ascii_of_string allowed_characters))
         (list_ascii_of_string code) ->
  args req !! "state" = Some state ->
  SeleneCache.get c (pairing_code_key code) = None ->
  let w := World c (tape_spelling code) 0 u d in
  _generate_pairing_code w = (Return code, after_draws 6 w) /\
  exists rd w',
    get pairing_code_key (S fuel) req w = (Return (rd, 200), w') /\
    dict_get rd "code" = Some (PyStr code).
Proof.
  intros Hlen Hall Hs Hfree w.
  assert (Hdraw : code_at (choices w) (drawn w) = code).
  { subst w. cbn [choices drawn].
    destruct code as [| a1 [| a2 [| a3 [| a4 [| a5 [| a6 [| a7 rest]]]]]]];
      try discriminate Hlen.
    cbn [list_ascii_of_string] in Hall.
    repeat match goal with
           | H : Forall _ (_ :: _) |- _ => inversion H; subst; clear H
           end.
    unfold code_at, tape_spelling.
    cbn [seq map Nat.add list_ascii_of_string nth string_of_list_ascii].
    now rewrite !drawn_character_position by assumption. }
  split.
  - rewrite generate_pairing_code_run. now rewrite Hdraw.
  - rewrite <- Hdraw in Hfree.
    eexists _, _.
    split; [exact (get_first_turn pairing_code_key fuel req state w Hs Hfree) |].
    rewrite Hdraw. apply dict_get_update_eq.
Qed.

Lemma every_allowed_code_can_be_issued_witness :
  String.length "NPRTUV" = 6%nat /\
  Forall (fun a => In a (list_ascii_of_string allowed_characters))
         (list_ascii_of_string "NPRTUV") /\
  args sample_request !! "state" = Some "abc-state"%string /\
  SeleneCache.get (cache crowded_world) (sample_key "NPRTUV") = None /\
  exists rd w',
    get sample_key 1 sample_request
      (World (cache crowded_world) (tape_spelling "NPRTUV") 0 (fun _ => 0) 0) =
      (Return (rd, 200), w') /\
    dict_get rd "code" = Some (PyStr "NPRTUV").
Proof.
  assert (Hall : Forall (fun a => In a (list_ascii_of_string allowed_characters))
                   (list_ascii_of_string "NPRTUV")).
  { cbn [list_ascii_of_string].
    repeat (apply List.Forall_cons;
            [cbv [allowed_characters list_ascii_of_string In];
             repeat (first [left; reflexivity | right])
            |]).
    apply List.Forall_nil. }
  assert (Hs : args sample_request !! "state" = Some "abc-state"%string)
    by (vm_compute; reflexivity).
  assert (Hfree : SeleneCache.get (cache crowded_world) (sample_key "NPRTUV") = None)
    by (vm_compute; reflexivity).
  split; [reflexivity |]. split; [exact Hall |]. split; [exact Hs |].
  split; [exact Hfree |].
  exact (proj2 (every_allowed_code_can_be_issued sample_key "NPRTUV"
                  (cache crowded_world) (fun _ => 0) 0 0 sample_request "abc-state"
                  eq_refl Hall Hs Hfree)).
Defined.

(* ===================================================================== *)
(** * The debug log *)
(* ===================================================================== *)

Section LoggedLoop.

Variable pairing_code_key : string -> string.

Lemma attempt_logged_run (response_data : pydict) (log : list string) (w : world) :
  let code := code_at (choices w) (drawn w) in
  let response_data' := dict_update response_data "code" (PyStr code) in
  let r := SeleneCache.set_if_not_exists_with_expiration
             (cache w) (pairing_code_key code) (json.dumps response_data') ONE_DAY in
  attempt_logged pairing_code_key response_data log w =
  (Return (fst r, response_data',
           log ++ [generated_message code; exists_message code]),
   World (snd r) (choices w) (6 + drawn w) (urandom w) (delivered w)).
Proof.
  intros code response_data' r. unfold attempt_logged.
  rewrite (bind_eq _ _ _ _ _ (generate_pairing_code_run w)).
  unfold bind, cache_set_if_not_exists_with_expiration, ret. cbn [cache after_draws].
  fold code. fold response_data'. fold r. destruct r as [added c].
  cbn [fst snd]. now rewrite <- app_assoc.
Qed.

Lemma messages_of_turns_S (w : world) (n : nat) :
  messages_of_turns w (S n) =
  [generated_message (code_of_turn w 0); exists_message (code_of_turn w 0)]
  ++ messages_of_turns (after_draws 6 w) n.
Proof.
  unfold messages_of_turns. change (seq 0 (S (S n))) with (0%nat :: seq 1 (S n)).
  rewrite <- (seq_shift (S n) 0). cbn [flat_map].
  apply (f_equal (app _)).
  rewrite !flat_map_concat_map, map_map. apply (f_equal (@concat string)).
  apply map_ext. intros k. now rewrite code_of_turn_S.
Qed.

Lemma logged_turn_taken (fuel : nat) (rd : pydict) (log : list string) (w : world) :
  occupied pairing_code_key w 0 ->
  pairing_loop_logged pairing_code_key (S fuel) rd log w =
  pairing_loop_logged pairing_code_key fuel
    (dict_update rd "code" (PyStr (code_of_turn w 0)))
    (log ++ [generated_message (code_of_turn w 0); exists_message (code_of_turn w 0)])
    (after_draws 6 w).
Proof.
  intros Hocc. cbn [pairing_loop_logged].
  rewrite (bind_eq _ _ _ _ _ (attempt_logged_run rd log w)).
  rewrite set_if_not_exists_taken by exact Hocc. reflexivity.
Qed.

Lemma logged_turn_free (fuel : nat) (rd : pydict) (log : list string) (w : world) :
  SeleneCache.get (cache w) (pairing_code_key (code_of_turn w 0)) = None ->
  let rd' := dict_update rd "code" (PyStr (code_of_turn w 0)) in
  pairing_loop_logged pairing_code_key (S fuel) rd log w =
  (Return (rd', log ++ messages_of_turns w 0),
   world_after_success pairing_code_key w 0 rd').
Proof.
  intros Hfree rd'. cbn [pairing_loop_logged].
  rewrite (bind_eq _ _ _ _ _ (attempt_logged_run rd log w)).
  rewrite code_of_turn_0 in Hfree.
  rewrite (set_if_not_exists_free _ _ _ _ Hfree). reflexivity.
Qed.

Lemma pairing_loop_logged_returns (n : nat) :
  forall (fuel : nat) (rd : pydict) (log : list string) (w : world),
    (forall k, (k < n)%nat -> occupied pairing_code_key w k) ->
    SeleneCache.get (cache w) (pairing_code_key (code_of_turn w n)) = None ->
    (n < fuel)%nat ->
    let rd' := dict_update rd "code" (PyStr (code_of_turn w n)) in
    pairing_loop_logged pairing_code_key fuel rd log w =
    (Return (rd', log ++ messages_of_turns w n),
     world_after_success pairing_code_key w n rd').
Proof.
  induction n as [| n IH]; intros fuel rd log w Hocc Hfree Hfuel rd';
    destruct fuel as [| fuel]; try lia.
  - now apply logged_turn_free.
  - rewrite logged_turn_taken by (apply Hocc; lia).
    rewrite (IH fuel _ _ (after_draws 6 w)).
    + subst rd'. rewrite code_of_turn_S, dict_update_update.
      rewrite messages_of_turns_S, <- app_assoc.
      unfold world_after_success. rewrite code_of_turn_S.
      cbn [after_draws cache choices drawn urandom delivered].
      replace (6 * S n + (6 + drawn w))%nat with (6 * S (S n) + drawn w)%nat by lia.
      reflexivity.
    + intros k Hk. unfold occupied. rewrite code_of_turn_S. apply Hocc. lia.
    + rewrite code_of_turn_S. exact Hfree.
    + lia.
Qed.

Lemma pairing_loop_logged_turning (fuel : nat) :
  forall (rd : pydict) (log : list string) (w : world),
    (forall k, (k < fuel)%nat -> occupied pairing_code_key w k) ->
    pairing_loop_logged pairing_code_key fuel rd log w =
    (Running, after_draws (6 * fuel) w).
Proof.
  induction fuel as [| fuel IH]; intros rd log w Hocc.
  - destruct w. reflexivity.
  - rewrite logged_turn_taken by (apply Hocc; lia).
    rewrite IH.
    + unfold after_draws. cbn [cache choices drawn urandom delivered].
      replace (6 * fuel + (6 + drawn w))%nat with (6 * S fuel + drawn w)%nat by lia.
      reflexivity.
    + intros k Hk. unfold occupied. rewrite code_of_turn_S. apply Hocc. lia.
Qed.

Lemma turn_messages_length (w : world) (n : nat) :
  forall start,
    length (flat_map (fun k => [generated_message (code_of_turn w k);
                                exists_message (code_of_turn w k)])
              (seq start n)) = (2 * n)%nat.
Proof.
  induction n as [| n IH]; intros start; [reflexivity |].
  cbn [seq flat_map]. rewrite length_app, IH. cbn [length]. lia.
Qed.

Lemma messages_of_turns_last (w : world) (n : nat) :
  exists earlier,
    messages_of_turns w n =
    earlier ++ [generated_message (code_of_turn w n); exists_message (code_of_turn w n)] /\
    length earlier = (2 * n)%nat.
Proof.
  unfold messages_of_turns. rewrite seq_S, flat_map_app. cbn [flat_map Nat.add].
  rewrite app_nil_r. eexists. split; [reflexivity |].
  apply turn_messages_length.
Qed.

End LoggedLoop.

(** X7. The call with its debug log: it returns what [_build_response]
    returns and leaves the same world, and its log holds two messages for
    every turn, the turns that collided and the one that stored the code
    alike.  So the last message of a call that returns reads
    [Pairing code <code> exists, generating new code] for the very code
    that was just stored and is returned. *)
Theorem success_is_logged_like_a_collision
    (pairing_code_key : string -> string) (fuel : nat) (req : request)
    (w w' : world) (rd : pydict) (log : list string) :
  _build_response_logged pairing_code_key fuel req w = (Return (rd, log), w') ->
  _build_response pairing_code_key fuel req w = (Return rd, w') /\
  exists n code earlier,
    dict_get rd "code" = Some (PyStr code) /\
    (forall k, (k < n)%nat -> occupied pairing_code_key (world_before_loop w) k) /\
    log = messages_of_turns (world_before_loop w) n /\
    length log = (2 * (n + 1))%nat /\
    log = earlier ++ [generated_message code; exists_message code].
Proof.
  intros H. unfold _build_response_logged in H.
  destruct (args req !! "state") as [state |] eqn:Hs.
  - rewrite (bind_eq _ _ _ _ _ (initial_response_run req state w Hs)) in H.
    rewrite (build_response_enters_loop pairing_code_key fuel req state w Hs).
    destruct (first_free_turn pairing_code_key (world_before_loop w) fuel)
      as [(n & Hn & Hocc & Hfree) | Hall].
    + rewrite (pairing_loop_logged_returns pairing_code_key n fuel _ [] _ Hocc Hfree Hn) in H.
      rewrite (pairing_loop_returns pairing_code_key n fuel _ _ Hocc Hfree Hn).
      cbv zeta in H. inversion H; subst. clear H. split; [reflexivity |].
      destruct (messages_of_turns_last (world_before_loop w) n) as (earlier & Heq & Hlen).
      exists n, (code_of_turn (world_before_loop w) n), earlier.
      split; [reflexivity |]. split; [exact Hocc |].
      split; [reflexivity |]. cbn [app]. split; [| exact Heq].
      rewrite Heq, length_app, Hlen. cbn [length]. lia.
    + rewrite (pairing_loop_logged_turning pairing_code_key fuel _ [] _ Hall) in H.
      discriminate.
  - unfold initial_response, request_arg, bind in H. rewrite Hs in H. discriminate.
Qed.

Lemma success_is_logged_like_a_collision_witness :
  _build_response_logged sample_key 1 sample_request sample_world =
    (Return (sample_response "ACEFHJ",
             ["Generated pairing code ACEFHJ"%string;
              "Pairing code ACEFHJ exists, generating new code"%string]),
     sample_world_2) /\
  _build_response sample_key 1 sample_request sample_world =
    (Return (sample_response "ACEFHJ"), sample_world_2).
Proof.
  assert (H : _build_response_logged sample_key 1 sample_request sample_world =
    (Return (sample_response "ACEFHJ",
             ["Generated pairing code ACEFHJ"%string;
              "Pairing code ACEFHJ exists, generating new code"%string]),
     sample_world_2)) by (vm_compute; reflexivity).
  split; [exact H |].
  exact (proj1 (success_is_logged_like_a_collision sample_key 1 sample_request
                  sample_world _ _ _ H)).
Defined.

(* ===================================================================== *)
(** * The stored text *)
(* ===================================================================== *)



















(* ===================================================================== *)
(** * Editing the settings *)
(* ===================================================================== *)

Lemma assoc_get_set_eq {V : Type} (d : list (string * V)) (k : string) (v : V) :
  assoc_get (assoc_set d k v) k = Some v.
Proof.
  induction d as [| [k' v'] d IH]; cbn [assoc_set assoc_get].
  - now rewrite String.eqb_refl.
  - destruct (String.eqb k' k) eqn:E; cbn [assoc_get]; rewrite E; [reflexivity | exact IH].
Qed.


Lemma sequence_index_lt (len : nat) (n : Z) (i : nat) :
  sequence_index len n = Some i -> (i < len)%nat.
Proof.
  unfold sequence_index.
  destruct ((0 <=? n) && (n <? Z.of_nat len)) eqn:E1.
  - intros H. inversion H. lia.
  - destruct ((n <? 0) && (- Z.of_nat len <=? n)) eqn:E2; [| discriminate].
    intros H. inversion H. lia.
Qed.

Lemma sequence_index_front (len : nat) (n : Z) :
  0 <= n < Z.of_nat len -> sequence_index len n = Some (Z.to_nat n).
Proof.
  intros Hn. unfold sequence_index.
  destruct (Z.leb_spec 0 n); [| lia]. destruct (Z.ltb_spec n (Z.of_nat len)); [| lia].
  reflexivity.
Qed.


(** What was put in a dictionary or a list is what is read there. *)
Lemma getitem_put_same (o : pyobj) (k : subscript) (c c' : pyobj) :
  getitem o k = Ok c ->
  (forall s, o <> OStr s) ->
  getitem (put o k c') k = Ok c'.
Proof.
  intros Hget Hstr. destruct o as [| b | n | s | l | d]; try discriminate.
  - exfalso. exact (Hstr s eq_refl).
  - destruct k as [s | n]; [discriminate |]. cbn [getitem put] in *.
    destruct (sequence_index (length l) n) as [i |] eqn:Hi; [| discriminate].
    cbn [getitem]. rewrite length_insert, Hi.
    rewrite list_lookup_insert_eq; [reflexivity |].
    now apply sequence_index_lt in Hi.
  - destruct k as [s | n]; [| discriminate]. cbn [getitem put].
    now rewrite assoc_get_set_eq.
Qed.



Section Editing.

Context {A : Type}.
Variable f : pyobj -> checked (pyobj * A).

(** Nothing reached through a string can be edited when [f] refuses
    strings. *)
Lemma edit_at_string (path : list subscript) :
  (forall s r, f (OStr s) <> Ok r) ->
  forall s r, edit_at path f (OStr s) <> Ok r.
Proof.
  intros Hf. induction path as [| k rest IH]; intros s r; cbn [edit_at]; [apply Hf |].
  destruct (getitem (OStr s) k) as [child | e] eqn:Hget; [| discriminate].
  assert (Hchild : exists s', child = OStr s').
  { destruct k as [s' | n]; cbn [getitem] in Hget; [discriminate |].
    destruct (sequence_index (String.length s) n); [| discriminate].
    destruct (list_ascii_of_string s !! n0); inversion Hget. eauto. }
  destruct Hchild as [s' ->].
  destruct (edit_at rest f (OStr s')) as [[child' a] | e] eqn:Hedit; [| discriminate].
  exfalso. exact (IH s' _ Hedit).
Qed.

(** An edit fails where reading the path fails, or where [f] fails on what
    is read. *)
Lemma edit_at_Fail (path : list subscript) :
  forall (o : pyobj) (e : step_error),
    edit_at path f o = Fail e <->
    read path o = Fail e \/ exists x, read path o = Ok x /\ f x = Fail e.
Proof.
  induction path as [| k rest IH]; intros o e; cbn [edit_at read].
  - split; [intros H; right; eauto |].
    intros [H | (x & Hx & Hf)]; [discriminate | congruence].
  - destruct (getitem o k) as [child | e0].
    + rewrite <- IH.
      destruct (edit_at rest f child) as [[child' a] | e1]; split; intros H;
        congruence.
    + split; [intros H; left; congruence |].
      intros [H | (x & Hx & _)]; [congruence | discriminate].
Qed.



End Editing.



Lemma set_value_string (s : string) (r : pyobj * unit) : set_value (OStr s) <> Ok r.
Proof. discriminate. Qed.


Lemma set_value_Ok (x x' : pyobj) (u : unit) :
  set_value x = Ok (x', u) ->
  exists items, x = ODict items /\ x' = ODict (assoc_set items "value" new_value).
Proof.
  unfold set_value. destruct x; cbn [setitem]; intros H; inversion H. eauto.
Qed.

Lemma set_value_Fail (x : pyobj) (e : step_error) :
  set_value x = Fail e <-> (forall items, x <> ODict items) /\ e = StepTypeError.
Proof.
  unfold set_value. destruct x; cbn [setitem]; split;
    try (intros H; inversion H; split; [discriminate | reflexivity]);
    try (intros [_ ->]; reflexivity);
    try discriminate.
  intros [H _]. exfalso. exact (H _ eq_refl).
Qed.


Lemma pop_second_Fail (x : pyobj) (e : step_error) :
  pop_second x = Fail e <->
  (exists l, x = OList l /\ (length l < 2)%nat /\ e = StepIndexError) \/
  (exists d, x = ODict d /\ e = StepKeyError (SInt 1)) \/
  ((forall l, x <> OList l) /\ (forall d, x <> ODict d) /\ e = StepAttributeError).
Proof.
  unfold pop_second. destruct x as [| b | n | s | l | d]; cbn [pop].
  1-4: split;
    [ intros H; inversion H; right; right; repeat split; discriminate
    | intros [(l & Hl & _) | [(d & Hd & _) | (_ & _ & ->)]];
      [discriminate | discriminate | reflexivity] ].
  - destruct l as [| first [| second rest]]; cbn [pop]; [cbn | cbn |]; split.
    + intros H; inversion H. left. exists []. cbn. repeat split. lia.
    + intros [(l & Hl & _ & ->) | [(d & Hd & _) | (Hl & _)]];
        [reflexivity | discriminate | exfalso; exact (Hl _ eq_refl)].
    + intros H; inversion H. left. exists [first]. cbn. repeat split. lia.
    + intros [(l & Hl & _ & ->) | [(d & Hd & _) | (Hl & _)]];
        [reflexivity | discriminate | exfalso; exact (Hl _ eq_refl)].
    + rewrite (sequence_index_front _ 1) by (cbn [length]; lia). discriminate.
    + intros [(l & Hl & Hlen & _) | [(d & Hd & _) | (Hl & _)]].
      * inversion Hl; subst. cbn in Hlen. lia.
      * discriminate.
      * exfalso; exact (Hl _ eq_refl).
  - split.
    + intros H; inversion H. right. left. eauto.
    + intros [(l & Hl & _) | [(d' & Hd & ->) | (_ & Hd & _)]];
        [discriminate | reflexivity | exfalso; exact (Hd _ eq_refl)].
Qed.






(** X12. [change_skill_setting_value] fails in exactly these cases: there
    is no skill [bar] ([KeyError] for that name); reading the path to the
    second field of the first section fails, with the error of that reading
    (a missing key, a list too short, something that cannot be
    subscripted); or what is read there is not a dictionary
    ([TypeError]). *)
Theorem change_skill_setting_value_failures {Skill : Type} (ctx : context Skill)
    (e : step_error) :
  change_skill_setting_value ctx = Fail e <->
  (assoc_get (skills ctx) "bar" = None /\ e = StepKeyError (SStr "bar")) \/
  (exists data,
     bar_data ctx = Some data /\
     (read field_path data = Fail e \/
      exists x, read field_path data = Ok x /\
                (forall items, x <> ODict items) /\ e = StepTypeError)).
Proof.
  unfold change_skill_setting_value, bar_data.
  destruct (assoc_get (skills ctx) "bar") as [[skill [data]] |]; cbn [display_data].
  - pose proof (edit_at_Fail set_value field_path data e) as Hfail.
    destruct (edit_at field_path set_value data) as [[data' u] | e0]; split.
    + discriminate.
    + intros [[H _] | (d & Hd & Hcase)]; [discriminate |]. inversion Hd; subst d.
      exfalso. assert (Hno : Ok (data', u) = Fail e); [| discriminate].
      apply Hfail. destruct Hcase as [Hr | (x & Hx & Hnot & ->)]; [now left |].
      right. exists x. split; [exact Hx |]. now apply set_value_Fail.
    + intros H. inversion H; subst e0. right. exists data. split; [reflexivity |].
      destruct (proj1 Hfail eq_refl) as [Hr | (x & Hx & Hfx)]; [now left |].
      right. exists x. apply set_value_Fail in Hfx. destruct Hfx as [Hnot ->]. auto.
    + intros [[H _] | (d & Hd & Hcase)]; [discriminate |]. inversion Hd; subst d.
      f_equal. symmetry. assert (He : @Fail (pyobj * unit) e0 = Fail e); [| congruence].
      apply Hfail. destruct Hcase as [Hr | (x & Hx & Hnot & ->)]; [now left |].
      right. exists x. split; [exact Hx |]. now apply set_value_Fail.
  - split.
    + intros H. inversion H. now left.
    + intros [[_ ->] | (d & Hd & _)]; [reflexivity | discriminate].
Qed.

(** X13. [delete_field_from_settings] fails in exactly these cases: there
    is no skill [bar] ([KeyError] for that name); reading the path to the
    list of fields fails, with the error of that reading; the fields are a
    list of fewer than two items ([IndexError]); they are a dictionary
    ([KeyError] for the key 1); or they are anything else, which has no
    [pop] ([AttributeError]). *)
Theorem delete_field_from_settings_failures {Skill : Type} (ctx : context Skill)
    (e : step_error) :
  delete_field_from_settings ctx = Fail e <->
  (assoc_get (skills ctx) "bar" = None /\ e = StepKeyError (SStr "bar")) \/
  (exists data,
     bar_data ctx = Some data /\
     (read fields_path data = Fail e \/
      exists x, read fields_path data = Ok x /\
        ((exists l, x = OList l /\ (length l < 2)%nat /\ e = StepIndexError) \/
         (exists d, x = ODict d /\ e = StepKeyError (SInt 1)) \/
         ((forall l, x <> OList l) /\ (forall d, x <> ODict d) /\
          e = StepAttributeError)))).
Proof.
  unfold delete_field_from_settings, bar_data.
  destruct (assoc_get (skills ctx) "bar") as [[skill [data]] |]; cbn [display_data].
  - pose proof (edit_at_Fail pop_second fields_path data e) as Hfail.
    destruct (edit_at fields_path pop_second data) as [[data' removed] | e0]; split.
    + discriminate.
    + intros [[H _] | (d & Hd & Hcase)]; [discriminate |]. inversion Hd; subst d.
      exfalso. assert (Hno : Ok (data', removed) = Fail e); [| discriminate].
      apply Hfail. destruct Hcase as [Hr | (x & Hx & Hpop)]; [now left |].
      right. exists x. split; [exact Hx |]. now apply pop_second_Fail.
    + intros H. inversion H; subst e0. right. exists data. split; [reflexivity |].
      destruct (proj1 Hfail eq_refl) as [Hr | (x & Hx & Hfx)]; [now left |].
      right. exists x. split; [exact Hx |]. now apply pop_second_Fail.
    + intros [[H _] | (d & Hd & Hcase)]; [discriminate |]. inversion Hd; subst d.
      f_equal. symmetry. assert (He : @Fail (pyobj * pyobj) e0 = Fail e); [| congruence].
      apply Hfail. destruct Hcase as [Hr | (x & Hx & Hpop)]; [now left |].
      right. exists x. split; [exact Hx |]. now apply pop_second_Fail.
  - split.
    + intros H. inversion H. now left.
    + intros [[_ ->] | (d & Hd & _)]; [reflexivity | discriminate].
Qed.

Lemma assoc_set_set {V : Type} (d : list (string * V)) (k : string) (v v' : V) :
  assoc_set (assoc_set d k v) k v' = assoc_set d k v'.
Proof.
  induction d as [| [k0 v0] d IH]; cbn [assoc_set].
  - now rewrite String.eqb_refl.
  - destruct (String.eqb k0 k) eqn:E; cbn [assoc_set]; rewrite E; [reflexivity |].
    now rewrite IH.
Qed.

(** Putting twice at the same place keeps the second object. *)
Lemma put_put (o : pyobj) (k : subscript) (c1 c2 : pyobj) :
  put (put o k c1) k c2 = put o k c2.
Proof.
  destruct o as [| b | n | s | l | d]; destruct k as [s' | n']; try reflexivity.
  - cbn [put]. destruct (sequence_index (length l) n') as [i |] eqn:Hi.
    + cbn [put]. rewrite length_insert, Hi. f_equal. apply list_insert_insert_eq.
    + cbn [put]. now rewrite Hi.
  - cbn [put]. now rewrite assoc_set_set.
Qed.

Section EditingTwice.

Context {A B : Type}.


(** An edit looks at [f] only on the object read at the path. *)
Lemma edit_at_ext (f g : pyobj -> checked (pyobj * A)) (p : list subscript) :
  forall o x, read p o = Ok x -> f x = g x -> edit_at p f o = edit_at p g o.
Proof.
  induction p as [| k p IH]; intros o x; cbn [read edit_at].
  - intros H. now inversion H.
  - destruct (getitem o k) as [child | e]; [| discriminate].
    intros Hx Hfg. now rewrite (IH child x Hx Hfg).
Qed.


(** Editing an edited object, at the same path, is editing the original
    there by what the second edit makes of the first edit's result. *)
Lemma edit_at_twice (h : pyobj -> checked (pyobj * A)) (g : pyobj -> checked (pyobj * B))
    (p : list subscript) :
  (forall s r, h (OStr s) <> Ok r) ->
  forall o o1 a,
    edit_at p h o = Ok (o1, a) ->
    exists x x1,
      read p o = Ok x /\ h x = Ok (x1, a) /\
      edit_at p g o1 = edit_at p (fun _ => g x1) o.
Proof.
  intros Hh. induction p as [| k p IH]; intros o o1 a; cbn [edit_at read].
  - intros H. exists o, o1. auto.
  - destruct (getitem o k) as [child | e] eqn:Hget; [| discriminate].
    destruct (edit_at p h child) as [[child1 a1] | e] eqn:Hedit; [| discriminate].
    intros H. inversion H; subst. clear H.
    destruct (IH _ _ _ Hedit) as (x & x1 & Hx & Hhx & Htwice).
    exists x, x1. split; [exact Hx |]. split; [exact Hhx |].
    assert (Hstr : forall s, o <> OStr s).
    { intros s ->.
      assert (Hc : exists s', child = OStr s').
      { destruct k as [s' | n]; cbn [getitem] in Hget; [discriminate |].
        destruct (sequence_index (String.length s) n); [| discriminate].
        destruct (list_ascii_of_string s !! n0); inversion Hget. eauto. }
      destruct Hc as [s' ->]. exact (edit_at_string h p Hh s' _ Hedit). }
    rewrite (getitem_put_same o k child child1 Hget Hstr), Htwice.
    destruct (edit_at p (fun _ => g x1) child) as [[child2 b] | e]; [| reflexivity].
    now rewrite put_put.
Qed.

End EditingTwice.






(** X15. [change_skill_setting_value] changes nothing the second time:
    run on the context it has produced, it succeeds and gives that context
    again. *)
Theorem change_skill_setting_value_twice {Skill : Type} (ctx ctx1 : context Skill) :
  change_skill_setting_value ctx = Ok ctx1 ->
  change_skill_setting_value ctx1 = Ok ctx1.
Proof.
  unfold change_skill_setting_value.
  destruct (assoc_get (skills ctx) "bar") as [[skill [data]] |] eqn:Hbar; [| discriminate].
  cbn [display_data].
  destruct (edit_at field_path set_value data) as [[data1 u] | e] eqn:Hedit; [| discriminate].
  intros H. inversion H; subst ctx1. clear H. cbn [skills removed_field].
  rewrite assoc_get_set_eq. cbn [display_data].
  destruct (edit_at_twice set_value set_value field_path set_value_string data data1 u Hedit)
    as (x & x1 & Hx & Hhx & Htwice).
  destruct (set_value_Ok x x1 u Hhx) as (items & -> & ->).
  rewrite Htwice.
  rewrite <- (edit_at_ext set_value
                (fun _ => set_value (ODict (assoc_set items "value" new_value)))
                field_path data _ Hx).
  - rewrite Hedit. now rewrite assoc_set_set.
  - unfold set_value. cbn [setitem]. now rewrite assoc_set_set.
Qed.

Lemma change_skill_setting_value_twice_witness :
  change_skill_setting_value sample_context =
    Ok (context_with [sample_field "label" "";
                      sample_field "textfield" "New device text value";
                      sample_field "checkbox" "true"] None) /\
  change_skill_setting_value
    (context_with [sample_field "label" "";
                   sample_field "textfield" "New device text value";
                   sample_field "checkbox" "true"] None) =
    Ok (context_with [sample_field "label" "";
                      sample_field "textfield" "New device text value";
                      sample_field "checkbox" "true"] None).
Proof.
  assert (H : change_skill_setting_value sample_context =
    Ok (context_with [sample_field "label" "";
                      sample_field "textfield" "New device text value";
                      sample_field "checkbox" "true"] None)) by (vm_compute; reflexivity).
  split; [exact H |].
  exact (change_skill_setting_value_twice _ _ H).
Defined.

(* ===================================================================== *)
(** * A call as a run of the system *)
(* ===================================================================== *)

Section CallAsRun.

Variable pairing_code_key : string -> string.

(** A request in the loop, [n] collisions away from a free key, gets to
    its return by [n + 1] steps of the system. *)
Lemma loop_is_run (i : nat) (n : nat) :
  forall (w : world) (rd : pydict) (s : system),
    shared s = cache w ->
    pool s !! i = Some (InLoop rd) ->
    (forall k, (k < n)%nat -> occupied pairing_code_key w k) ->
    SeleneCache.get (cache w) (pairing_code_key (code_of_turn w n)) = None ->
    let rd' := dict_update rd "code" (PyStr (code_of_turn w n)) in
    rtc (step pairing_code_key) s
      (System (cache (world_after_success pairing_code_key w n rd'))
         (<[i := Finished rd' (SeleneCache.clock (shared s)) false]> (pool s))).
Proof.
  induction n as [| n IH]; intros w rd s Hshared Hi Hocc Hfree rd'.
  - apply rtc_once.
    assert (Hat : attempt pairing_code_key rd w =
              (Return (true, rd'), world_after_success pairing_code_key w 0 rd')).
    { rewrite attempt_run. rewrite code_of_turn_0 in Hfree.
      now rewrite (set_if_not_exists_free _ _ _ _ Hfree). }
    exact (step_attempt pairing_code_key s i w _ rd rd' true Hi (eq_sym Hshared) Hat).
  - set (rd1 := dict_update rd "code" (PyStr (code_of_turn w 0))).
    assert (Hat : attempt pairing_code_key rd w = (Return (false, rd1), after_draws 6 w)).
    { rewrite attempt_run.
      rewrite set_if_not_exists_taken by (apply (Hocc 0%nat); lia).
      destruct w. reflexivity. }
    pose proof (step_attempt pairing_code_key s i w _ rd rd1 false Hi (eq_sym Hshared) Hat)
      as Hstep.
    eapply rtc_l; [exact Hstep |].
    set (s1 := System (cache (after_draws 6 w)) (<[i := InLoop rd1]> (pool s))).
    assert (Hrun : rtc (step pairing_code_key) s1
              (System
                 (cache (world_after_success pairing_code_key (after_draws 6 w) n
                           (dict_update rd1 "code"
                              (PyStr (code_of_turn (after_draws 6 w) n)))))
                 (<[i := Finished
                           (dict_update rd1 "code"
                              (PyStr (code_of_turn (after_draws 6 w) n)))
                           (SeleneCache.clock (shared s1)) false]> (pool s1)))).
    { apply IH.
      - reflexivity.
      - subst s1. cbn [pool]. apply lookup_insert_eq.
      - intros k Hk. unfold occupied. rewrite code_of_turn_S. apply Hocc. lia.
      - rewrite code_of_turn_S. exact Hfree. }
    subst s1 rd1. cbn [pool shared] in Hrun.
    rewrite insert_insert_eq, code_of_turn_S, dict_update_update in Hrun.
    replace (cache (world_after_success pairing_code_key (after_draws 6 w) n
                      (dict_update rd "code" (PyStr (code_of_turn w (S n))))))
      with (cache (world_after_success pairing_code_key w (S n) rd')) in Hrun.
    + cbn [after_draws cache] in Hrun.
      replace (SeleneCache.clock (cache w)) with (SeleneCache.clock (shared s)) in Hrun
        by now rewrite Hshared.
      exact Hrun.
    + unfold world_after_success. rewrite code_of_turn_S. reflexivity.
Qed.

End CallAsRun.

(** X16. A call is a run of the system.  If [_build_response] returns a
    response from a world, then in the system of concurrent requests a new
    request on the same cache gets, by steps of the system alone, to having
    returned this response, with the cache the call left. *)
Theorem call_is_a_run_of_the_system
    (pairing_code_key : string -> string) (fuel : nat) (req : request)
    (w w' : world) (rd : pydict) (s : system) (i : nat) :
  _build_response pairing_code_key fuel req w = (Return rd, w') ->
  shared s = cache w ->
  pool s !! i = None ->
  rtc (step pairing_code_key) s
    (System (cache w')
       (<[i := Finished rd (SeleneCache.clock (shared s)) false]> (pool s))).
Proof.
  intros Hrun Hshared Hi. apply build_response_Return_inv in Hrun.
  destruct Hrun as (state & n & Hs & _ & Hocc & Hfree & Hrd & ->).
  set (s1 := System (cache (world_before_loop w))
               (<[i := InLoop (response_before_loop state w)]> (pool s))).
  assert (Hstep : step pairing_code_key s s1).
  { exact (step_request pairing_code_key s i req w (world_before_loop w)
             (response_before_loop state w) Hi (eq_sym Hshared)
             (initial_response_run req state w Hs)). }
  eapply rtc_l; [exact Hstep |].
  pose proof (loop_is_run pairing_code_key i n (world_before_loop w)
                (response_before_loop state w) s1 eq_refl
                (lookup_insert_eq _ _ _) Hocc Hfree) as Hloop.
  cbv zeta in Hloop. subst s1. cbn [pool shared] in Hloop.
  rewrite insert_insert_eq, <- Hrd in Hloop.
  cbn [world_before_loop cache] in Hloop.
  replace (SeleneCache.clock (cache w)) with (SeleneCache.clock (shared s)) in Hloop
    by now rewrite Hshared.
  exact Hloop.
Qed.

Lemma call_is_a_run_of_the_system_witness :
  _build_response sample_key 2 sample_request sample_world_3 =
    (Return (sample_response "KLMNPR"), sample_world_5) /\
  shared sample_system_2 = cache sample_world_3 /\
  pool sample_system_2 !! 1%nat = None /\
  rtc (step sample_key) sample_system_2
    (System (cache sample_world_5)
       (<[1%nat := Finished (sample_response "KLMNPR") 0 false]> (pool sample_system_2))).
Proof.
  assert (H : _build_response sample_key 2 sample_request sample_world_3 =
    (Return (sample_response "KLMNPR"), sample_world_5)) by (vm_compute; reflexivity).
  assert (Hp : pool sample_system_2 !! 1%nat = None) by (vm_compute; reflexivity).
  split; [exact H |]. split; [reflexivity |]. split; [exact Hp |].
  exact (call_is_a_run_of_the_system sample_key 2 sample_request sample_world_3 _ _
           sample_system_2 1 H eq_refl Hp).
Defined.
